(** * visualize_storm: event search over DMSP files

    A shallow embedding of [visualize_storm.py] (functions [main] and
    [search_events]) together with the parts of pandas and numpy it calls,
    and of the event-detection engine of [lib_search_dispersion] that it
    drives.

    Conventions.
    - Timestamps (numpy [datetime64] / pandas [Timestamp]) are integers
      [Z]: a count of time units since the epoch.
    - Physical scalars (Python [float]) are exact rationals [Qc]; the
      statements below only use comparisons, sign changes and means, never
      rounding behaviour.
    - A Python call either returns a value or raises: [result].
    - Console output, plot files, the CSV file and the figures pyplot
      opens and closes are recorded, in order, in a trace of [Effect]s
      that is threaded through [main] and [search_events] and survives an
      exception. *)

From Stdlib Require Import ZArith QArith Qcanon List String Bool Lia.
From Stdlib Require Import Sorted Permutation.
Import ListNotations.
Open Scope Z_scope.

(* ================================================================== *)
(** * Exceptions and results *)

Inductive exn : Type :=
| CDFError          (* spacepy.pycdf.CDFError *)
| OutOfRangeError   (* field record does not cover a timestamp *)
| IndexError        (* numpy index out of bounds *)
| TypeError         (* e.g. None + str *)
| ValueError        (* pd.concat on nothing *)
| OtherError.       (* any other Python exception: KeyError, OSError, ... *)

Inductive result (A : Type) : Type :=
| Ok (a : A)
| Raise (e : exn).
Arguments Ok {A} a.
Arguments Raise {A} e.

Definition is_ok {A} (r : result A) : bool :=
  match r with Ok _ => true | Raise _ => false end.

(* ================================================================== *)
(** * Data *)

Abbreviation Time := Z (only parsing).
Abbreviation Real := Qc (only parsing).

(** Columns of the match table built by [walk_and_integrate]. *)
Record MatchRecord : Type := mkMatch {
  start_time : Time;
  end_time   : Time;
  Bx_mean    : Real;
  By_mean    : Real;
  Bz_mean    : Real
}.

(** The loaded DMSP file: the dictionary [dmsp_fh].  [char_energy] is the
    per-timestep characteristic energy the derivative estimator reads. *)
Record Dmsp : Type := mkDmsp {
  dmsp_t      : list Time;          (* dmsp_fh['t'] *)
  ch_energy   : list Real;          (* dmsp_fh['ch_energy'] *)
  ion_d_ener  : list (list Real);   (* dmsp_fh['ion_d_ener'] *)
  char_energy : list Real;
  mlat        : list Real           (* dmsp_fh['mlat'] *)
}.

(** One sample of the OMNIweb magnetic-field record. *)
Record FieldSample : Type := mkField {
  f_time : Time;
  f_Bx   : Real;
  f_By   : Real;
  f_Bz   : Real
}.

Definition Omni := list FieldSample.

(** The case file, a JSON object read by [main]. *)
Record CaseFile : Type := mkCase {
  OMNIWEB_FILES  : list string;
  DMSP_FILES     : list string;
  PLOT_OUTPUT    : string;
  REVERSE_EFFECT : bool;
  EVENT_OUTPUT   : string
}.

(* ================================================================== *)
(** * numpy *)

Module Np.

Definition size {A} (a : list A) : Z := Z.of_nat (List.length a).

(** [a.searchsorted(v)] (side='left') on an ascending array: the number
    of leading elements that are smaller than [v]. *)
Fixpoint searchsorted (a : list Time) (v : Time) : Z :=
  match a with
  | [] => 0
  | x :: rest => if x <? v then 1 + searchsorted rest v else 0
  end.

(** [a[k]] for an integer [k]: negative indices count from the end,
    anything outside [-size, size) raises IndexError. *)
Definition getitem {A} (a : list A) (k : Z) : result A :=
  let k' := if k <? 0 then k + size a else k in
  if (0 <=? k') && (k' <? size a)
  then match nth_error a (Z.to_nat k') with
       | Some x => Ok x
       | None => Raise IndexError
       end
  else Raise IndexError.

(** A slice bound [k] of [a[i:j]]: a negative bound counts from the end,
    and every bound is clipped to the array. *)
Definition bound {A} (a : list A) (k : Z) : Z :=
  if k <? 0 then Z.max (k + size a) 0 else Z.min k (size a).

(** [a[i:j]] (never raises). *)
Definition slice {A} (a : list A) (i j : Z) : list A :=
  firstn (Z.to_nat (bound a j - bound a i)) (skipn (Z.to_nat (bound a i)) a).

End Np.

(* ================================================================== *)
(** * pandas *)

Module Pd.

(** A row of a match table: the five match columns and the optional
    ['file'] column ([None]: the column is absent, or NaN after a
    concatenation with a table that has it). *)
Record Row : Type := mkRow {
  rec  : MatchRecord;
  file : option string
}.

Record DataFrame : Type := mkDF {
  file_column : bool;      (* 'file' in df.columns *)
  rows        : list Row
}.

(** [pd.DataFrame(records, columns=[start_time, ..., Bz_mean])]. *)
Definition from_records (rs : list MatchRecord) : DataFrame :=
  {| file_column := false; rows := map (fun r => mkRow r None) rs |}.

(** [df['file'] = name]: the scalar is broadcast to every row. *)
Definition set_file (df : DataFrame) (name : string) : DataFrame :=
  {| file_column := true;
     rows := map (fun r => mkRow (rec r) (Some name)) (rows df) |}.

Definition somes {A} (l : list (option A)) : list A :=
  flat_map (fun o => match o with Some x => [x] | None => [] end) l.

(** [pd.concat(objs)]: [None] entries are dropped silently; an empty
    list, or a list of [None] only, raises ValueError. *)
Definition concat (objs : list (option DataFrame)) : result DataFrame :=
  match somes objs with
  | [] => Raise ValueError
  | dfs => Ok {| file_column := existsb file_column dfs;
                 rows := flat_map rows dfs |}
  end.

Fixpoint insert_by_start (r : Row) (l : list Row) : list Row :=
  match l with
  | [] => [r]
  | x :: rest =>
      if start_time (rec r) <=? start_time (rec x)
      then r :: x :: rest
      else x :: insert_by_start r rest
  end.

(** [df.sort_values('start_time')]: the rows in ascending order of
    [start_time]. *)
Definition sort_values (df : DataFrame) : DataFrame :=
  {| file_column := file_column df;
     rows := fold_right insert_by_start [] (rows df) |}.

End Pd.

(* ================================================================== *)
(** * Effects *)

(** A figure saved by [plt.savefig]: the parts of [out_name] and the
    plotted index window with the two latitudes of the title. *)
Record Figure : Type := mkFigure {
  fig_folder  : string;
  fig_file    : string;
  fig_start   : Time;
  fig_end     : Time;
  fig_i       : Z;
  fig_j       : Z;
  fig_mlat_i  : Real;
  fig_mlat_j  : Real;
  fig_reverse : bool
}.

Inductive Effect : Type :=
| Processing (k n : Z) (dmsp_file : string)   (* cprint 'Processing k/n :: file' *)
| Subplots                                    (* plt.subplots(...): a figure is opened; pyplot warns
                                                 (RuntimeWarning) when 20 are open already *)
| Makedirs (path : string)                    (* os.makedirs(path, exist_ok=True) *)
| Savefig (f : Figure)                        (* plt.savefig(out_name) *)
| CloseFig                                    (* plt.close(): the figure is closed *)
| WrotePlot (f : Figure)                      (* cprint 'Wrote plot ...' *)
| Discovered                                  (* cprint 'Discovered events:' *)
| PrintTable (df : Pd.DataFrame)              (* print(df.to_string(index=0)) *)
| Writing (n : Z) (path : string)             (* cprint 'Writing event output ...' *)
| ToCsv (path : string) (df : Pd.DataFrame).  (* df.to_csv(path, index=0) *)

Definition World := list Effect.

(** Computations that log effects and may raise. *)
Definition M (A : Type) : Type := World -> result A * World.

Definition ret {A} (a : A) : M A := fun w => (Ok a, w).
Definition raise {A} (e : exn) : M A := fun w => (Raise e, w).
Definition bind {A B} (m : M A) (k : A -> M B) : M B :=
  fun w => match m w with
           | (Ok a, w') => k a w'
           | (Raise e, w') => (Raise e, w')
           end.
Definition lift {A} (r : result A) : M A := fun w => (r, w).
Definition emit (e : Effect) : M unit := fun w => (Ok tt, w ++ [e]).

Declare Scope storm_scope.
Delimit Scope storm_scope with storm.
Notation "x <- m ;; k" := (bind m (fun x => k))
  (at level 61, m at next level, right associativity) : storm_scope.
Notation "m ;;; k" := (bind m (fun _ => k))
  (at level 61, right associativity) : storm_scope.
Open Scope storm_scope.

(** The CSV files written so far. *)
Definition csv_written (w : World) : list (string * Pd.DataFrame) :=
  flat_map (fun e => match e with ToCsv p df => [(p, df)] | _ => [] end) w.

(* ================================================================== *)
(** * The interface of lib_search_dispersion used by the driver *)

Record WalkResult : Type := mkWalk {
  walk_matches   : list MatchRecord;   (* df_match *)
  walk_integrand : list Real           (* integrand *)
}.

Record Lib : Type := mkLib {
  read_omniweb_files : list string -> result Omni;
  read_dmsp_file : string -> result Dmsp;
  estimate_log_Eic_smooth_derivative :
    Dmsp -> result (list (option Real) * list (option Real));
  walk_and_integrate :
    Dmsp -> Omni -> list (option Real) -> list (option Real) -> Z -> bool ->
    result WalkResult;
  INTERVAL_LENGTH : Z;
  MAX_ENERGY_ANALYZED : Real
}.

(* ================================================================== *)
(** * visualize_storm.py *)

Section Driver.

Variable L : Lib.

(** Lines 96-101: the index window of one plot. *)
Definition plot_window (t : list Time) (row : MatchRecord) : Z * Z :=
  let i := Np.searchsorted t (start_time row) in
  let j := Np.searchsorted t (end_time row) in
  let delta_index := Z.quot (j - i) 2 in     (* int(0.50 * (j - i)) *)
  let i := Z.max (i - delta_index) 0 in
  let j := Z.min (j + delta_index) (Np.size t - 1) in
  (i, j).

(** Line 107: [axes[0].pcolor(t[i:j], log10(ch_energy), ion_d_ener[:, i:j])].
    On an empty window the call raises ValueError; on a window with at
    least one timestep of a spectrogram whose arrays are per-timestep it
    draws. *)
Definition pcolor (x : list Time) : result unit :=
  match x with
  | [] => Raise ValueError
  | _ :: _ => Ok tt
  end.

(** Lines 95-152: the body of the plotting loop for one row.  Every row
    opens a figure (line 103), whatever [no_plots] is; the figure is
    closed (line 148) only after it has been saved.  [pcolor] (line 107)
    and the two [mlat] accesses of the title (line 130) come before the
    test of [no_plots] (line 140), the concatenation [outfolder + '/']
    after it.  The other matplotlib calls (colorbar, plot, axhline,
    fill_between, axis labels) draw per-timestep arrays of the same
    window and are not modelled as able to fail. *)
Definition plot_row (dmsp_file : string) (dmsp_fh : Dmsp)
    (outfolder : option string) (no_plots reverse_effect : bool)
    (row_match : MatchRecord) (df_match : Pd.DataFrame) : M Pd.DataFrame :=
  let '(i, j) := plot_window (dmsp_t dmsp_fh) row_match in
  emit Subplots ;;;
  lift (pcolor (Np.slice (dmsp_t dmsp_fh) i j)) ;;;
  mlat_i <- lift (Np.getitem (mlat dmsp_fh) i) ;;
  mlat_j <- lift (Np.getitem (mlat dmsp_fh) j) ;;
  if no_plots then ret df_match
  else
    match outfolder with
    | None => raise TypeError
    | Some folder =>
        let fig := mkFigure folder dmsp_file (start_time row_match)
                     (end_time row_match) i j mlat_i mlat_j reverse_effect in
        emit (Makedirs folder) ;;;
        emit (Savefig fig) ;;;
        emit CloseFig ;;;
        emit (WrotePlot fig) ;;;
        ret (Pd.set_file df_match dmsp_file)
    end.

(** [for _, row_match in df_match.iterrows(): ...]: the rows iterated
    are those the table had when the loop started. *)
Fixpoint plot_rows (dmsp_file : string) (dmsp_fh : Dmsp)
    (outfolder : option string) (no_plots reverse_effect : bool)
    (todo : list MatchRecord) (df_match : Pd.DataFrame) : M Pd.DataFrame :=
  match todo with
  | [] => ret df_match
  | row_match :: rest =>
      df' <- plot_row dmsp_file dmsp_fh outfolder no_plots reverse_effect
               row_match df_match ;;
      plot_rows dmsp_file dmsp_fh outfolder no_plots reverse_effect rest df'
  end.

(** Lines 65-154.  [None] is Python's None, returned by the bare
    [return] of the [except pycdf.CDFError] handler. *)
Definition search_events (dmsp_file : string) (omniweb_fh : Omni)
    (outfolder : option string) (no_plots reverse_effect : bool)
    : M (option Pd.DataFrame) :=
  match read_dmsp_file L dmsp_file with
  | Raise CDFError => ret None
  | Raise e => raise e
  | Ok dmsp_fh =>
      d <- lift (estimate_log_Eic_smooth_derivative L dmsp_fh) ;;
      let '(dEicdt_smooth, Eic) := d in
      wr <- lift (walk_and_integrate L dmsp_fh omniweb_fh dEicdt_smooth Eic
                    (INTERVAL_LENGTH L) reverse_effect) ;;
      let df_match := Pd.from_records (walk_matches wr) in
      df <- plot_rows dmsp_file dmsp_fh outfolder no_plots reverse_effect
              (walk_matches wr) df_match ;;
      ret (Some df)
  end.

(** Lines 40-52: the loop over the DMSP files; [k] is [i+1] and [n]
    the number of files. *)
Fixpoint file_loop (case_file : CaseFile) (no_plot : bool) (omniweb_fh : Omni)
    (k n : Z) (files : list string) : M (list (option Pd.DataFrame)) :=
  match files with
  | [] => ret []
  | dmsp_file :: rest =>
      emit (Processing k n dmsp_file) ;;;
      df_match <- search_events dmsp_file omniweb_fh
                    (Some (PLOT_OUTPUT case_file)) no_plot
                    (REVERSE_EFFECT case_file) ;;
      df_matches <- file_loop case_file no_plot omniweb_fh (k + 1) n rest ;;
      ret (df_match :: df_matches)
  end.

(** Lines 23-62, after the case file is parsed. *)
Definition main (case_file : CaseFile) (no_plot : bool) : M unit :=
  omniweb_fh <- lift (read_omniweb_files L (OMNIWEB_FILES case_file)) ;;
  df_matches <- file_loop case_file no_plot omniweb_fh 1
                  (Np.size (DMSP_FILES case_file)) (DMSP_FILES case_file) ;;
  df0 <- lift (Pd.concat df_matches) ;;
  let df := Pd.sort_values df0 in
  emit Discovered ;;;
  emit (PrintTable df) ;;;
  emit (Writing (Np.size (Pd.rows df)) (EVENT_OUTPUT case_file)) ;;;
  emit (ToCsv (EVENT_OUTPUT case_file) df).

End Driver.

(* ================================================================== *)
(** * The event-detection engine of lib_search_dispersion

    [lib_search_dispersion.py] is not among the source files embedded here; the
    definitions of this module follow the design document of the engine
    (FieldContext, DerivativeEstimator, IntegrandBuilder, EventWalker,
    MatchSummarizer).  The numeric constants and threshold rules the
    document leaves open are the fields of [Tuning]. *)

Module Core.

Inductive Polarity : Type := Forward | Reverse.

Definition polarity_of (reverse_effect : bool) : Polarity :=
  if reverse_effect then Reverse else Forward.

Definition Field : Type := Real * Real * Real.

(** Modelled from the spec: the tunable constants and rules of the
    engine, which the design document names but does not fix (the
    smoothing kernel and its window, the logarithm, the polarity gate on
    the field, the entry, exit and acceptance rules of the walker). *)
Record Tuning : Type := mkTuning {
  smoothing_window  : Z;
  log_energy        : Real -> Real;
  smooth_derivative : list Time -> list (option Real) -> list (option Real);
  field_gate        : Polarity -> Field -> bool;
  entry_rule        : Polarity -> Real -> bool;
  exit_rule         : Polarity -> Real -> bool;
  accept_rule       : Polarity -> Z -> Real -> bool
}.

Definition Qc_ltb (x y : Real) : bool :=
  match (x ?= y)%Qc with Lt => true | _ => false end.

Definition of_Z (z : Z) : Real := Q2Qc (inject_Z z).

Definition sum (l : list Real) : Real := fold_right Qcplus 0%Qc l.

Definition mean (l : list Real) : Real :=
  (sum l / of_Z (Np.size l))%Qc.

(** ** FieldContext *)

Definition dist (a b : Time) : Z := Z.abs (a - b).

Fixpoint nearest (best : FieldSample) (rest : Omni) (t : Time) : FieldSample :=
  match rest with
  | [] => best
  | s :: rest' =>
      if dist (f_time s) t <? dist (f_time best) t
      then nearest s rest' t
      else nearest best rest' t
  end.

Definition vector (s : FieldSample) : Field := (f_Bx s, f_By s, f_Bz s).

(** Modelled from the spec: FieldContext.field_at, the nearest-neighbour
    lookup that fails with OutOfRangeError outside the time span of the
    record. *)
Definition field_at (omni : Omni) (t : Time) : result Field :=
  match omni with
  | [] => Raise OutOfRangeError
  | s0 :: rest =>
      if (t <? f_time s0) || (f_time (last omni s0) <? t)
      then Raise OutOfRangeError
      else Ok (vector (nearest s0 rest t))
  end.

Definition in_span (a b : Time) (s : FieldSample) : bool :=
  (a <=? f_time s) && (f_time s <=? b).

(** Modelled from the spec: FieldContext.mean_over, the arithmetic mean
    of the samples in [[a, b]], with the single-point estimate at the
    midpoint when no sample falls in the range. *)
Definition mean_over (omni : Omni) (a b : Time) : result Field :=
  match filter (in_span a b) omni with
  | [] => field_at omni ((a + b) / 2)
  | inside => Ok (mean (map f_Bx inside), mean (map f_By inside),
                  mean (map f_Bz inside))
  end.

Section Engine.

Variable T : Tuning.

(** ** DerivativeEstimator *)

(** Modelled from the spec: step 1 of DerivativeEstimator, the
    logarithmic transform; a non-positive sample is a gap. *)
Definition log_series (energy : list Real) : list (option Real) :=
  map (fun e => if Qc_ltb 0%Qc e then Some (log_energy T e) else None)
      energy.

(** Modelled from the spec: DerivativeEstimator, which returns an
    empty derivative series when the input has fewer samples than the
    smoothing window, and the smoothed derivative otherwise. *)
Definition estimate (dmsp_fh : Dmsp)
    : list (option Real) * list (option Real) :=
  let Eic := log_series (char_energy dmsp_fh) in
  if Np.size (char_energy dmsp_fh) <? smoothing_window T
  then ([], Eic)
  else (smooth_derivative T (dmsp_t dmsp_fh) Eic, Eic).

(** ** IntegrandBuilder *)

Definition above_cutoff (cutoff : Real) (e : option Real) : bool :=
  match e with
  | Some v => Qc_ltb (log_energy T cutoff) v
  | None => true
  end.

(** Modelled from the spec: the integrand rule of IntegrandBuilder at
    one timestep: the derivative where the field passes the polarity
    gate, zero at a gap, above the energy cutoff and where the gate is
    closed. *)
Definition integrand_at (pol : Polarity) (omni : Omni) (cutoff : Real)
    (t : Time) (d e : option Real) : result Real :=
  match field_at omni t with
  | Raise x => Raise x
  | Ok B =>
      match d with
      | None => Ok 0%Qc
      | Some dv =>
          if above_cutoff cutoff e then Ok 0%Qc
          else if field_gate T pol B then Ok dv else Ok 0%Qc
      end
  end.

(** Modelled from the spec: IntegrandBuilder, one integrand sample per
    sample of the derivative series. *)
Fixpoint build_integrand (pol : Polarity) (omni : Omni) (cutoff : Real)
    (ts : list Time) (ds es : list (option Real)) : result (list Real) :=
  match ts, ds, es with
  | t :: ts', d :: ds', e :: es' =>
      match integrand_at pol omni cutoff t d e with
      | Raise x => Raise x
      | Ok v =>
          match build_integrand pol omni cutoff ts' ds' es' with
          | Raise x => Raise x
          | Ok vs => Ok (v :: vs)
          end
      end
  | _, _, _ => Ok []
  end.

(** ** EventWalker *)

Record CandidateInterval : Type := mkInterval {
  start_index      : Z;
  end_index        : Z;
  running_integral : Real
}.

Inductive WalkerState : Type :=
| IDLE
| ACCUMULATING (c : CandidateInterval).

Definition time_at (ts : list Time) (k : Z) : Time :=
  nth (Z.to_nat k) ts 0.

(** Modelled from the spec: the acceptance filter of EventWalker,
    applied when an interval closes; an interval with
    [end_index = start_index] is discarded. *)
Definition accepted (pol : Polarity) (ts : list Time)
    (c : CandidateInterval) : bool :=
  (start_index c <? end_index c)
  && accept_rule T pol
       (time_at ts (end_index c) - time_at ts (start_index c))
       (running_integral c).

Definition close (pol : Polarity) (ts : list Time) (c : CandidateInterval)
    : list CandidateInterval :=
  if accepted pol ts c then [c] else [].

(** Modelled from the spec: one transition of EventWalker at index
    [k].  [prev] is the timestamp of the sample before, so that the
    contribution is the sample times the elapsed time.  Returns the
    next state and the interval closed, if any. *)
Definition step (pol : Polarity) (ts : list Time) (interval_length : Z)
    (k : Z) (prev t : Time) (x : Real) (st : WalkerState)
    : WalkerState * list CandidateInterval :=
  let contribution := (x * of_Z (t - prev))%Qc in
  match st with
  | IDLE =>
      if entry_rule T pol x
      then (ACCUMULATING (mkInterval k k contribution), [])
      else (IDLE, [])
  | ACCUMULATING c =>
      let c' := mkInterval (start_index c) k
                  (running_integral c + contribution)%Qc in
      if exit_rule T pol (running_integral c')
         || (interval_length <=? t - time_at ts (start_index c))
      then (IDLE, close pol ts c')
      else (ACCUMULATING c', [])
  end.

(** Modelled from the spec: EventWalker, the single left-to-right pass
    over the integrand; an interval still open after the last sample is
    closed there and goes through the same acceptance filter. *)
Fixpoint walk (pol : Polarity) (ts : list Time) (interval_length : Z)
    (k : Z) (prev : Time) (samples : list (Time * Real))
    (st : WalkerState) : list CandidateInterval :=
  match samples with
  | [] =>
      match st with
      | IDLE => []
      | ACCUMULATING c => close pol ts c
      end
  | (t, x) :: rest =>
      let '(st', out) := step pol ts interval_length k prev t x st in
      out ++ walk pol ts interval_length (k + 1) t rest st'
  end.

Definition event_walker (pol : Polarity) (ts : list Time)
    (interval_length : Z) (integrand : list Real)
    : list CandidateInterval :=
  walk pol ts interval_length 0 (hd 0 ts) (combine ts integrand) IDLE.

(** ** MatchSummarizer *)

(** Modelled from the spec: MatchSummarizer, the time bounds of the
    interval and the mean field over them. *)
Definition summarize (omni : Omni) (ts : list Time)
    (c : CandidateInterval) : result MatchRecord :=
  let a := time_at ts (start_index c) in
  let b := time_at ts (end_index c) in
  match mean_over omni a b with
  | Raise x => Raise x
  | Ok (bx, by_, bz) => Ok (mkMatch a b bx by_ bz)
  end.

Fixpoint summarize_all (omni : Omni) (ts : list Time)
    (cs : list CandidateInterval) : result (list MatchRecord) :=
  match cs with
  | [] => Ok []
  | c :: cs' =>
      match summarize omni ts c with
      | Raise x => Raise x
      | Ok r =>
          match summarize_all omni ts cs' with
          | Raise x => Raise x
          | Ok rs => Ok (r :: rs)
          end
      end
  end.

(** ** The pipeline behind [walk_and_integrate] *)

(** Modelled from the spec: [walk_and_integrate], which is the
    IntegrandBuilder, the EventWalker and the MatchSummarizer in
    sequence, and returns the match records with the integrand. *)
Definition walk_and_integrate (cutoff : Real) (dmsp_fh : Dmsp)
    (omniweb_fh : Omni) (dEicdt_smooth Eic : list (option Real))
    (interval_length : Z) (reverse_effect : bool) : result WalkResult :=
  let pol := polarity_of reverse_effect in
  let ts := dmsp_t dmsp_fh in
  match build_integrand pol omniweb_fh cutoff ts dEicdt_smooth Eic with
  | Raise x => Raise x
  | Ok integrand =>
      match summarize_all omniweb_fh ts
              (event_walker pol ts interval_length integrand) with
      | Raise x => Raise x
      | Ok matches => Ok (mkWalk matches integrand)
      end
  end.

(** Modelled from the spec: the library as the driver sees it; the
    two readers stand for the excluded file loading and for the files
    on disk. *)
Definition lib (omni_reader : list string -> result Omni)
    (dmsp_reader : string -> result Dmsp)
    (interval_length : Z) (cutoff : Real) : Lib :=
  mkLib omni_reader dmsp_reader (fun fh => Ok (estimate fh))
        (walk_and_integrate cutoff) interval_length cutoff.

End Engine.

End Core.

(* ================================================================== *)
(** * Observations on runs *)

(** [logs P m]: [m] returns the same result from every starting trace and
    only appends effects that satisfy [P]. *)
Definition logs {A} (P : Effect -> Prop) (m : M A) : Prop :=
  exists r log, Forall P log /\ forall w, m w = (r, w ++ log).

Definition plot_effect (e : Effect) : Prop :=
  match e with
  | Subplots | Makedirs _ | Savefig _ | CloseFig | WrotePlot _ => True
  | _ => False
  end.

Definition not_csv (e : Effect) : Prop :=
  match e with ToCsv _ _ => False | _ => True end.

(** The result of a run of [m] from the empty trace. *)
Definition value {A} (m : M A) : result A := fst (m []).

(** The first failure of a list of results, or all the values. *)
Fixpoint results_of {A} (rs : list (result A)) : result (list A) :=
  match rs with
  | [] => Ok []
  | Raise e :: _ => Raise e
  | Ok a :: rest =>
      match results_of rest with
      | Ok l => Ok (a :: l)
      | Raise e => Raise e
      end
  end.

(** What [search_events] returns for one file of a run of [main]. *)
Definition per_file (L : Lib) (case_file : CaseFile) (no_plot : bool)
    (omniweb_fh : Omni) (dmsp_file : string) : result (option Pd.DataFrame) :=
  value (search_events L dmsp_file omniweb_fh (Some (PLOT_OUTPUT case_file))
           no_plot (REVERSE_EFFECT case_file)).

Definition le_start (a b : Pd.Row) : Prop :=
  start_time (Pd.rec a) <= start_time (Pd.rec b).

(** The table a successful pass of the plotting loop leaves. *)
Definition after_plots (file : string) (np : bool) (todo : list MatchRecord)
    (df : Pd.DataFrame) : Pd.DataFrame :=
  if np then df
  else match todo with [] => df | _ :: _ => Pd.set_file df file end.


(** The table [main] prints and writes, or the exception that ends the
    run, in terms of the per-file results. *)
Definition main_outcome (L : Lib) (case_file : CaseFile) (no_plot : bool)
    : result Pd.DataFrame :=
  match read_omniweb_files L (OMNIWEB_FILES case_file) with
  | Raise e => Raise e
  | Ok omniweb_fh =>
      match results_of (map (per_file L case_file no_plot omniweb_fh)
                          (DMSP_FILES case_file)) with
      | Raise e => Raise e
      | Ok df_matches =>
          match Pd.concat df_matches with
          | Raise e => Raise e
          | Ok df0 => Ok (Pd.sort_values df0)
          end
      end
  end.

(** The effects of the last four statements of [main]. *)
Definition report (case_file : CaseFile) (df : Pd.DataFrame) : World :=
  [Discovered; PrintTable df;
   Writing (Np.size (Pd.rows df)) (EVENT_OUTPUT case_file);
   ToCsv (EVENT_OUTPUT case_file) df].

(* ================================================================== *)
(** * A concrete configuration and concrete files *)

Module Example.

Import Core.

Definition q (z : Z) : Real := of_Z z.

(** A difference quotient with respect to time, as smoothing kernel. *)
Fixpoint quotients (prev_t : Time) (prev_e : option Real)
    (ts : list Time) (es : list (option Real)) : list (option Real) :=
  match ts, es with
  | t :: ts', e :: es' =>
      match prev_e, e with
      | Some a, Some b => Some ((b - a) / of_Z (t - prev_t))%Qc
      | _, _ => None
      end :: quotients t e ts' es'
  | _, _ => []
  end.

(** Forward polarity asks for a southward field, reverse polarity for a
    northward one; the walker rules are the same for both. *)
Definition tuning : Tuning :=
  {| smoothing_window := 3;
     log_energy := fun e => e;
     smooth_derivative := fun ts es => quotients 0 None ts es;
     field_gate := fun pol B =>
       match pol with
       | Forward => Qc_ltb (snd B) 0%Qc
       | Reverse => Qc_ltb 0%Qc (snd B)
       end;
     entry_rule := fun _ x => Qc_ltb 0%Qc x;
     exit_rule := fun _ running => negb (Qc_ltb 0%Qc running);
     accept_rule := fun _ duration integral =>
       (60 <=? duration) && Qc_ltb 0%Qc integral |}.

Definition minutes : list Time := [0; 60; 120; 180; 240; 300; 360; 420].

Definition day1 : Dmsp :=
  {| dmsp_t := minutes;
     ch_energy := [q 30; q 1000];
     ion_d_ener := [map q [10; 20; 30; 40; 50; 60; 70; 80];
                    map q [11; 21; 31; 41; 51; 61; 71; 81]];
     char_energy := map q [1; 2; 3; 4; 5; 6; 7; 8];
     mlat := map q [60; 61; 62; 63; 64; 65; 66; 67] |}.

(** Two samples only: fewer than the smoothing window. *)
Definition short_day : Dmsp :=
  {| dmsp_t := [0; 60];
     ch_energy := [q 30; q 1000];
     ion_d_ener := [map q [10; 20]; map q [11; 21]];
     char_energy := map q [1; 2];
     mlat := map q [60; 61] |}.

(** A day after the end of the field record. *)
Definition late_day : Dmsp :=
  {| dmsp_t := map (fun t => t + 1000) minutes;
     ch_energy := ch_energy day1;
     ion_d_ener := ion_d_ener day1;
     char_energy := char_energy day1;
     mlat := mlat day1 |}.

Definition field (t : Time) : FieldSample :=
  mkField t (q 5) (q (-2)) (q (-8)).

Definition omni : Omni := map field [0; 120; 240; 360; 480].

Definition dmsp_reader (path : string) : result Dmsp :=
  if String.eqb path "day1.cdf" then Ok day1
  else if String.eqb path "short.cdf" then Ok short_day
  else if String.eqb path "late.cdf" then Ok late_day
  else if String.eqb path "corrupt.cdf" then Raise CDFError
  else Raise OtherError.

Definition omni_reader (paths : list string) : result Omni := Ok omni.

Definition lib : Lib :=
  Core.lib tuning omni_reader dmsp_reader 120 (q 100).

Definition case_of (files : list string) : CaseFile :=
  {| OMNIWEB_FILES := ["omni.cdf"%string];
     DMSP_FILES := files;
     PLOT_OUTPUT := "plots";
     REVERSE_EFFECT := false;
     EVENT_OUTPUT := "events.csv" |}.

End Example.

(* ================================================================== *)
(** * Properties of match sequences *)

(** [ordered lo cs]: the index intervals [cs] start at or after [lo], each
    one ends after it starts, and each one starts after the one before
    has ended. *)
Fixpoint ordered (lo : Z) (cs : list Core.CandidateInterval) : Prop :=
  match cs with
  | [] => True
  | c :: rest =>
      lo <= Core.start_index c /\
      Core.start_index c < Core.end_index c /\
      ordered (Core.end_index c + 1) rest
  end.

(** The timestep [tau] lies in the interval of the record [r]. *)
Definition covers (r : MatchRecord) (tau : Time) : Prop :=
  start_time r <= tau <= end_time r.

Definition disjoint (a b : MatchRecord) : Prop :=
  forall tau, ~ (covers a tau /\ covers b tau).

Definition starts_before (a b : MatchRecord) : Prop :=
  start_time a < start_time b.

(** What the walker needs of the state it is started in at index [k]. *)
Definition state_ok (k : Z) (st : Core.WalkerState) : Prop :=
  match st with
  | Core.IDLE => True
  | Core.ACCUMULATING c =>
      0 <= Core.start_index c /\ Core.start_index c <= Core.end_index c
      /\ Core.end_index c < k
  end.

Definition state_lo (k : Z) (st : Core.WalkerState) : Z :=
  match st with
  | Core.IDLE => k
  | Core.ACCUMULATING c => Core.start_index c
  end.

(** The record that summarizes an interval covers its two timestamps. *)
Definition summarizes (ts : list Time) (c : Core.CandidateInterval)
    (r : MatchRecord) : Prop :=
  start_time r = Core.time_at ts (Core.start_index c) /\
  end_time r = Core.time_at ts (Core.end_index c).

Definition ends_before (a b : MatchRecord) : Prop :=
  end_time a < start_time b.

(* ================================================================== *)
(** * Polarity and the sign of the field *)















(* ================================================================== *)
(** * Observations on the plotting loop and on the trace of a run *)

(** The exception that ends the loop body for a row before [no_plots] is
    looked at, if any: ValueError of [pcolor] on an empty window, else
    IndexError of an [mlat] access of the title. *)
Definition row_error (dmsp_fh : Dmsp) (row : MatchRecord) : option exn :=
  let '(i, j) := plot_window (dmsp_t dmsp_fh) row in
  match pcolor (Np.slice (dmsp_t dmsp_fh) i j) with
  | Raise e => Some e
  | Ok _ =>
      match Np.getitem (mlat dmsp_fh) i with
      | Raise e => Some e
      | Ok _ =>
          match Np.getitem (mlat dmsp_fh) j with
          | Raise e => Some e
          | Ok _ => None
          end
      end
  end.

(** The exception of the first row that has one. *)
Fixpoint first_error (dmsp_fh : Dmsp) (rows : list MatchRecord)
    : option exn :=
  match rows with
  | [] => None
  | row :: rest =>
      match row_error dmsp_fh row with
      | Some e => Some e
      | None => first_error dmsp_fh rest
      end
  end.

(** The rows before the first one that has an exception. *)
Fixpoint plotted (dmsp_fh : Dmsp) (rows : list MatchRecord)
    : list MatchRecord :=
  match rows with
  | [] => []
  | row :: rest =>
      match row_error dmsp_fh row with
      | Some _ => []
      | None => row :: plotted dmsp_fh rest
      end
  end.

(** The figures opened by the loop: one per row it gets through, and one
    for the row that ends it. *)
Definition opened (dmsp_fh : Dmsp) (rows : list MatchRecord) : nat :=
  List.length (plotted dmsp_fh rows)
  + match first_error dmsp_fh rows with Some _ => 1 | None => 0 end.

Definition get_or {A} (d : A) (r : result A) : A :=
  match r with Ok a => a | Raise _ => d end.

(** The figure the loop saves for a row. *)
Definition figure_of (dmsp_file : string) (dmsp_fh : Dmsp) (folder : string)
    (reverse_effect : bool) (row : MatchRecord) : Figure :=
  let '(i, j) := plot_window (dmsp_t dmsp_fh) row in
  mkFigure folder dmsp_file (start_time row) (end_time row) i j
    (get_or 0%Qc (Np.getitem (mlat dmsp_fh) i))
    (get_or 0%Qc (Np.getitem (mlat dmsp_fh) j))
    reverse_effect.

(** The effects of one full pass through lines 103-150. *)
Definition plot_effects (dmsp_file : string) (dmsp_fh : Dmsp) (folder : string)
    (reverse_effect : bool) (row : MatchRecord) : World :=
  let fig := figure_of dmsp_file dmsp_fh folder reverse_effect row in
  [Subplots; Makedirs folder; Savefig fig; CloseFig; WrotePlot fig].


(** The number of figures pyplot holds open after a trace; matplotlib
    issues its RuntimeWarning ('More than 20 figures have been opened')
    when a figure is opened while 20 are open. *)
Fixpoint open_figures (w : World) : Z :=
  match w with
  | [] => 0
  | Subplots :: rest => open_figures rest + 1
  | CloseFig :: rest => open_figures rest - 1
  | _ :: rest => open_figures rest
  end.

(** The progress lines of a trace. *)
Definition progress (w : World) : list (Z * Z * string) :=
  flat_map (fun e => match e with
                     | Processing k n f => [(k, n, f)]
                     | _ => []
                     end) w.

Fixpoint numbered (k n : Z) (files : list string) : list (Z * Z * string) :=
  match files with
  | [] => []
  | f :: rest => (k, n, f) :: numbered (k + 1) n rest
  end.

(** How many of the files a run starts on: all of them, or those up to
    and including the first one that ends with an exception. *)
Fixpoint started {A} (rs : list (result A)) : nat :=
  match rs with
  | [] => 0
  | Ok _ :: rest => S (started rest)
  | Raise _ :: _ => 1
  end.

(** What a run of [main] may write, and where. *)
Definition confined (case_file : CaseFile) (no_plot : bool) (e : Effect)
    : Prop :=
  match e with
  | Processing _ n f =>
      n = Np.size (DMSP_FILES case_file) /\ In f (DMSP_FILES case_file)
  | Makedirs p => no_plot = false /\ p = PLOT_OUTPUT case_file
  | Savefig fig | WrotePlot fig =>
      no_plot = false /\ fig_folder fig = PLOT_OUTPUT case_file /\
      In (fig_file fig) (DMSP_FILES case_file)
  | Subplots | CloseFig | Discovered | PrintTable _ | Writing _ _ => True
  | ToCsv p _ => p = EVENT_OUTPUT case_file
  end.

(** What one call of [search_events] may write, and where. *)
Definition plots_of (dmsp_file : string) (outfolder : option string)
    (no_plots : bool) (e : Effect) : Prop :=
  match e with
  | Makedirs p => no_plots = false /\ outfolder = Some p
  | Savefig fig | WrotePlot fig =>
      no_plots = false /\ outfolder = Some (fig_folder fig) /\
      fig_file fig = dmsp_file
  | Subplots | CloseFig => True
  | _ => False
  end.

(** A library double: every file is [Example.day1], and its match rows
    are the given ones. *)
Definition fixed_lib (rows : list MatchRecord) : Lib :=
  mkLib (fun _ => Ok Example.omni) (fun _ => Ok Example.day1)
        (fun fh => Ok (map (fun _ => Some 0%Qc) (dmsp_t fh),
                       map (fun e => Some e) (char_energy fh)))
        (fun fh _ _ _ _ _ =>
           Ok (mkWalk rows (map (fun _ => 0%Qc) (dmsp_t fh))))
        120 (Example.q 100).

Definition sample_rows : list MatchRecord :=
  [ mkMatch 60 180 (Example.q 5) (Example.q (-2)) (Example.q (-8));
    mkMatch 240 360 (Example.q 5) (Example.q (-2)) (Example.q (-8)) ].
(* ================================================================== *)
(** * Reasoning about effectful computations *)

Lemma logs_ret {A} P (a : A) : logs P (ret a).
Proof.
  exists (Ok a), []. split; [constructor|].
  intros w. unfold ret. now rewrite app_nil_r.
Qed.

Lemma logs_raise {A} P (e : exn) : logs P (@raise A e).
Proof.
  exists (Raise e), []. split; [constructor|].
  intros w. unfold raise. now rewrite app_nil_r.
Qed.

Lemma logs_lift {A} P (r : result A) : logs P (lift r).
Proof.
  exists r, []. split; [constructor|].
  intros w. unfold lift. now rewrite app_nil_r.
Qed.

Lemma logs_emit (P : Effect -> Prop) (e : Effect) : P e -> logs P (emit e).
Proof.
  intros He. exists (Ok tt), [e]. split; [now constructor|].
  intros w. reflexivity.
Qed.

Lemma logs_bind {A B} P (m : M A) (k : A -> M B) :
  logs P m -> (forall a, logs P (k a)) -> logs P (bind m k).
Proof.
  intros (r & log & Hlog & Hm) Hk.
  destruct r as [a|e].
  - destruct (Hk a) as (r' & log' & Hlog' & Hk').
    exists r', (log ++ log'). split.
    + apply Forall_app. now split.
    + intros w. unfold bind. rewrite Hm, Hk'. now rewrite app_assoc.
  - exists (Raise e), log. split; [assumption|].
    intros w. unfold bind. now rewrite Hm.
Qed.

Lemma logs_weaken {A} (P Q : Effect -> Prop) (m : M A) :
  (forall e, P e -> Q e) -> logs P m -> logs Q m.
Proof.
  intros HPQ (r & log & Hlog & Hm).
  exists r, log. split; [|assumption].
  eapply Forall_impl; eauto.
Qed.

Lemma logs_value {A} P (m : M A) :
  logs P m -> forall w, fst (m w) = value m.
Proof.
  intros (r & log & _ & Hm) w. unfold value. now rewrite !Hm.
Qed.

Lemma logs_run {A} P (m : M A) :
  logs P m -> exists log, Forall P log /\ forall w, m w = (value m, w ++ log).
Proof.
  intros (r & log & Hlog & Hm). exists log. split; [assumption|].
  intros w. unfold value. rewrite (Hm []), (Hm w). reflexivity.
Qed.

Lemma bind_lift_ok {A B} (a : A) (k : A -> M B) w :
  bind (lift (Ok a)) k w = k a w.
Proof. reflexivity. Qed.

Lemma bind_lift_raise {A B} (e : exn) (k : A -> M B) w :
  bind (lift (Raise e)) k w = (Raise e, w).
Proof. reflexivity. Qed.

Lemma csv_written_app (w1 w2 : World) :
  csv_written (w1 ++ w2) = csv_written w1 ++ csv_written w2.
Proof. unfold csv_written. apply flat_map_app. Qed.

Lemma csv_written_not_csv (log : World) :
  Forall not_csv log -> csv_written log = [].
Proof.
  induction 1 as [|e log He _ IH]; [reflexivity|].
  simpl. rewrite IH. destruct e; simpl in *; try reflexivity. contradiction.
Qed.

Lemma plot_effect_not_csv e : plot_effect e -> not_csv e.
Proof. destruct e; simpl; auto. Qed.

Ltac logs_step :=
  repeat first
    [ apply logs_ret | apply logs_raise | apply logs_lift
    | apply logs_emit; exact I
    | apply logs_bind; [|intros ?] ].

Section DriverFacts.

Variable L : Lib.

Lemma plot_row_logs file fh out np rev row df :
  logs plot_effect (plot_row file fh out np rev row df).
Proof.
  unfold plot_row. destruct (plot_window _ _) as [i j].
  logs_step. destruct np; [apply logs_ret|].
  destruct out; logs_step.
Qed.

Lemma plot_rows_logs file fh out np rev todo :
  forall df, logs plot_effect (plot_rows file fh out np rev todo df).
Proof.
  induction todo as [|row rest IH]; intros df; simpl.
  - apply logs_ret.
  - apply logs_bind; [apply plot_row_logs | intros df'; apply IH].
Qed.

Lemma search_events_logs file omni out np rev :
  logs plot_effect (search_events L file omni out np rev).
Proof.
  unfold search_events.
  destruct (read_dmsp_file L file) as [fh|[]]; logs_step.
  destruct a as [dE Eic]. logs_step. apply plot_rows_logs.
Qed.

Lemma set_file_twice df file :
  Pd.set_file (Pd.set_file df file) file = Pd.set_file df file.
Proof.
  unfold Pd.set_file. simpl. f_equal. rewrite map_map. reflexivity.
Qed.

Lemma plot_row_ok file fh out np rev row df w df' w' :
  plot_row file fh out np rev row df w = (Ok df', w') ->
  df' = if np then df else Pd.set_file df file.
Proof.
  unfold plot_row. destruct (plot_window _ _) as [i j].
  unfold bind, lift, emit, ret, raise.
  destruct (pcolor _); [|discriminate].
  destruct (Np.getitem (mlat fh) i); [|discriminate].
  destruct (Np.getitem (mlat fh) j); [|discriminate].
  destruct np; [congruence|].
  destruct out; [|discriminate]. congruence.
Qed.

Lemma plot_rows_ok file fh out np rev todo :
  forall df w df' w',
    plot_rows file fh out np rev todo df w = (Ok df', w') ->
    df' = after_plots file np todo df.
Proof.
  induction todo as [|row rest IH]; intros df w df' w' H; simpl in H.
  - unfold ret in H. unfold after_plots. destruct np; congruence.
  - unfold bind in H.
    destruct (plot_row file fh out np rev row df w) as [[d|e] w1] eqn:E;
      [|discriminate].
    apply plot_row_ok in E. apply IH in H. subst.
    unfold after_plots. destruct np; [reflexivity|].
    destruct rest; [reflexivity|]. apply set_file_twice.
Qed.

Lemma file_loop_logs case_file np omni n files :
  forall k, logs not_csv (file_loop L case_file np omni k n files).
Proof.
  induction files as [|f rest IH]; intros k; simpl.
  - apply logs_ret.
  - apply logs_bind; [apply logs_emit; exact I | intros _].
    apply logs_bind.
    + eapply logs_weaken; [apply plot_effect_not_csv|].
      apply search_events_logs.
    + intros d. apply logs_bind; [apply IH | intros ds; apply logs_ret].
Qed.

Lemma file_loop_value case_file np omni n files :
  forall k,
    value (file_loop L case_file np omni k n files)
    = results_of (map (per_file L case_file np omni) files).
Proof.
  induction files as [|f rest IH]; intros k; [reflexivity|].
  specialize (IH (k + 1)).
  destruct (logs_run _ _ (search_events_logs f omni
              (Some (PLOT_OUTPUT case_file)) np (REVERSE_EFFECT case_file)))
    as (log1 & _ & H1).
  destruct (logs_run _ _ (file_loop_logs case_file np omni n rest (k + 1)))
    as (log2 & _ & H2).
  unfold value at 1. simpl. unfold bind at 1. unfold emit at 1.
  unfold bind at 1. rewrite H1. fold (per_file L case_file np omni f).
  destruct (per_file L case_file np omni f) as [d|e]; [|reflexivity].
  unfold bind. rewrite H2, IH.
  destruct (results_of _); reflexivity.
Qed.

End DriverFacts.

(* ================================================================== *)
(** * pandas: sorting and concatenation *)

Lemma insert_by_start_perm r l :
  Permutation (Pd.insert_by_start r l) (r :: l).
Proof.
  induction l as [|x l IH]; simpl; [reflexivity|].
  destruct (_ <=? _); [reflexivity|].
  rewrite IH. apply perm_swap.
Qed.

Lemma insert_by_start_sorted r l :
  StronglySorted le_start l -> StronglySorted le_start (Pd.insert_by_start r l).
Proof.
  induction 1 as [|x l Hs IH Hx]; simpl.
  - repeat constructor.
  - destruct (Z.leb_spec (start_time (Pd.rec r)) (start_time (Pd.rec x))) as [Hle|Hgt].
    + constructor; [now constructor|].
      constructor; [exact Hle|].
      eapply Forall_impl; [|exact Hx].
      unfold le_start. intros; lia.
    + constructor; [exact IH|].
      eapply Permutation_Forall; [symmetry; apply insert_by_start_perm|].
      constructor; [unfold le_start; lia | exact Hx].
Qed.

Lemma sort_values_perm df :
  Permutation (Pd.rows (Pd.sort_values df)) (Pd.rows df).
Proof.
  unfold Pd.sort_values. simpl.
  induction (Pd.rows df) as [|r l IH]; simpl; [reflexivity|].
  rewrite insert_by_start_perm. now constructor.
Qed.

Lemma sort_values_sorted df :
  StronglySorted le_start (Pd.rows (Pd.sort_values df)).
Proof.
  unfold Pd.sort_values. simpl.
  induction (Pd.rows df) as [|r l IH]; simpl; [constructor|].
  now apply insert_by_start_sorted.
Qed.

Lemma concat_ok objs df :
  Pd.concat objs = Ok df ->
  Pd.somes objs <> [] /\ Pd.rows df = flat_map Pd.rows (Pd.somes objs).
Proof.
  unfold Pd.concat. destruct (Pd.somes objs) eqn:E; [discriminate|].
  intros H. injection H as <-. split; [discriminate | reflexivity].
Qed.

Lemma concat_raise objs :
  Pd.somes objs = [] -> Pd.concat objs = Raise ValueError.
Proof. unfold Pd.concat. now intros ->. Qed.

Lemma concat_some objs :
  Pd.somes objs <> [] -> exists df, Pd.concat objs = Ok df.
Proof.
  unfold Pd.concat. destruct (Pd.somes objs); [congruence|]. eauto.
Qed.

(* ================================================================== *)
(** * The run of main *)

Lemma main_spec L case_file np w :
  exists log, Forall not_csv log /\
    main L case_file np w =
      match main_outcome L case_file np with
      | Ok df => (Ok tt, w ++ log ++ report case_file df)
      | Raise e => (Raise e, w ++ log)
      end.
Proof.
  unfold main, main_outcome.
  destruct (read_omniweb_files L (OMNIWEB_FILES case_file)) as [omni|e].
  2:{ exists []. split; [constructor|]. unfold bind, lift. now rewrite app_nil_r. }
  destruct (logs_run _ _ (file_loop_logs L case_file np omni
              (Np.size (DMSP_FILES case_file)) (DMSP_FILES case_file) 1))
    as (log & Hlog & Hrun).
  rewrite file_loop_value in Hrun.
  exists log. split; [exact Hlog|].
  unfold bind at 1. unfold lift at 1. unfold bind at 1. rewrite Hrun.
  destruct (results_of _) as [dfs|e]; [|reflexivity].
  unfold bind at 1. unfold lift at 1.
  destruct (Pd.concat dfs) as [df0|e]; [|reflexivity].
  unfold bind, emit, report. rewrite <- !app_assoc. reflexivity.
Qed.

Lemma main_csv L case_file np w :
  csv_written (snd (main L case_file np w)) =
    csv_written w ++
    match main_outcome L case_file np with
    | Ok df => [(EVENT_OUTPUT case_file, df)]
    | Raise _ => []
    end.
Proof.
  destruct (main_spec L case_file np w) as (log & Hlog & ->).
  apply csv_written_not_csv in Hlog.
  destruct (main_outcome L case_file np); simpl;
    rewrite ?csv_written_app, Hlog; simpl; now rewrite ?app_nil_r.
Qed.

Lemma main_value L case_file np w :
  fst (main L case_file np w) =
    match main_outcome L case_file np with
    | Ok _ => Ok tt
    | Raise e => Raise e
    end.
Proof.
  destruct (main_spec L case_file np w) as (log & _ & ->).
  now destruct (main_outcome L case_file np).
Qed.

(* ================================================================== *)
(** * numpy: indices *)

Lemma size_cons {A} (x : A) (a : list A) : Np.size (x :: a) = 1 + Np.size a.
Proof. unfold Np.size. cbn [List.length]. lia. Qed.

Lemma size_nonneg {A} (a : list A) : 0 <= Np.size a.
Proof. unfold Np.size. lia. Qed.

Lemma searchsorted_range a v : 0 <= Np.searchsorted a v <= Np.size a.
Proof.
  induction a as [|x a IH]; cbn [Np.searchsorted].
  - unfold Np.size. simpl. lia.
  - rewrite size_cons. destruct (x <? v); lia.
Qed.

Lemma searchsorted_full a v :
  Np.searchsorted a v = Np.size a -> Forall (fun x => x < v) a.
Proof.
  induction a as [|x a IH]; cbn [Np.searchsorted]; intros H; [constructor|].
  rewrite size_cons in H.
  pose proof (searchsorted_range a v) as R.
  destruct (Z.ltb_spec x v); [|lia].
  constructor; [assumption|]. apply IH. lia.
Qed.

Lemma searchsorted_mono a v1 v2 :
  v1 <= v2 -> Np.searchsorted a v1 <= Np.searchsorted a v2.
Proof.
  intros Hv. induction a as [|x a IH]; cbn [Np.searchsorted]; [lia|].
  pose proof (searchsorted_range a v2).
  destruct (Z.ltb_spec x v1), (Z.ltb_spec x v2); lia.
Qed.

Lemma searchsorted_below_last a v :
  a <> [] -> v <= last a 0 -> Np.searchsorted a v < Np.size a.
Proof.
  intros Hne Hv.
  pose proof (searchsorted_range a v) as R.
  destruct (Z.eq_dec (Np.searchsorted a v) (Np.size a)) as [E|]; [|lia].
  apply searchsorted_full in E.
  destruct (exists_last Hne) as (a' & x & ->).
  rewrite last_last in Hv.
  apply Forall_app in E as [_ E]. inversion E; subst. lia.
Qed.

Lemma getitem_ok {A} (a : list A) k :
  0 <= k < Np.size a -> exists x, Np.getitem a k = Ok x.
Proof.
  intros Hk. unfold Np.getitem.
  destruct (Z.ltb_spec k 0); [lia|].
  destruct (Z.leb_spec 0 k); [|lia].
  destruct (Z.ltb_spec k (Np.size a)); [|lia]. simpl.
  destruct (nth_error a (Z.to_nat k)) eqn:E; [eauto|].
  apply nth_error_None in E. unfold Np.size in Hk. lia.
Qed.

Lemma slice_length {A} (a : list A) i j :
  0 <= i <= j -> j <= Np.size a -> Np.size (Np.slice a i j) = j - i.
Proof.
  unfold Np.slice, Np.bound. intros Hij Hj.
  destruct (Z.ltb_spec i 0), (Z.ltb_spec j 0); try lia.
  unfold Np.size in *. rewrite length_firstn, length_skipn. lia.
Qed.

(* ================================================================== *)
(** * search_events: the handler, the plotting loop, the result *)

Section SearchEvents.

Variable L : Lib.

Lemma search_events_cdf_error file omni out np rev w :
  read_dmsp_file L file = Raise CDFError ->
  search_events L file omni out np rev w = (Ok None, w).
Proof. unfold search_events. now intros ->. Qed.

Lemma search_events_other_error file omni out np rev w e :
  read_dmsp_file L file = Raise e -> e <> CDFError ->
  search_events L file omni out np rev w = (Raise e, w).
Proof.
  unfold search_events. intros -> He. destruct e; try reflexivity; congruence.
Qed.

(** Inversion of a call that returned a table. *)
Lemma search_events_some file omni out np rev w df w' :
  search_events L file omni out np rev w = (Ok (Some df), w') ->
  exists fh dE Eic wr,
    read_dmsp_file L file = Ok fh /\
    estimate_log_Eic_smooth_derivative L fh = Ok (dE, Eic) /\
    walk_and_integrate L fh omni dE Eic (INTERVAL_LENGTH L) rev = Ok wr /\
    df = after_plots file np (walk_matches wr)
           (Pd.from_records (walk_matches wr)).
Proof.
  unfold search_events.
  destruct (read_dmsp_file L file) as [fh|e] eqn:Eread.
  2:{ destruct e; unfold ret, raise; intros H; discriminate H. }
  unfold bind at 1, lift at 1.
  destruct (estimate_log_Eic_smooth_derivative L fh) as [[dE Eic]|e] eqn:Eest;
    [|discriminate].
  unfold bind at 1, lift at 1.
  destruct (walk_and_integrate L fh omni dE Eic (INTERVAL_LENGTH L) rev)
    as [wr|e] eqn:Ewalk; [|discriminate].
  unfold bind at 1.
  destruct (plot_rows _ _ _ _ _ _ _ w) as [[d|e] w1] eqn:E; [|discriminate].
  unfold ret. intros H. injection H as Hd Hw.
  apply plot_rows_ok in E. subst.
  exists fh, dE, Eic, wr. repeat split; auto.
Qed.

Lemma after_plots_rec file np todo df :
  map Pd.rec (Pd.rows (after_plots file np todo df)) = map Pd.rec (Pd.rows df).
Proof.
  unfold after_plots. destruct np; [reflexivity|].
  destruct todo; [reflexivity|]. simpl. rewrite map_map. reflexivity.
Qed.

Lemma from_records_rec rs : map Pd.rec (Pd.rows (Pd.from_records rs)) = rs.
Proof. simpl. rewrite map_map. simpl. apply map_id. Qed.

End SearchEvents.

(* ================================================================== *)
(** * The plotting loop, row by row *)

Lemma plot_row_run file fh out np rev row df w :
  plot_row file fh out np rev row df w =
    match row_error fh row with
    | Some e => (Raise e, w ++ [Subplots])
    | None =>
        if np then (Ok df, w ++ [Subplots])
        else match out with
             | None => (Raise TypeError, w ++ [Subplots])
             | Some folder =>
                 (Ok (Pd.set_file df file),
                  w ++ plot_effects file fh folder rev row)
             end
    end.
Proof.
  unfold plot_row, row_error, plot_effects, figure_of.
  destruct (plot_window (dmsp_t fh) row) as [i j].
  unfold bind, lift, emit.
  destruct (pcolor (Np.slice (dmsp_t fh) i j)) as [[]|e]; [|reflexivity].
  destruct (Np.getitem (mlat fh) i) as [a|e]; [|reflexivity].
  destruct (Np.getitem (mlat fh) j) as [b|e]; [|reflexivity].
  cbn [get_or].
  destruct np; [reflexivity|].
  destruct out as [folder|]; [|reflexivity].
  unfold ret. rewrite <- !app_assoc. reflexivity.
Qed.

Lemma plotted_all fh rows :
  first_error fh rows = None -> plotted fh rows = rows.
Proof.
  induction rows as [|row rest IH]; [reflexivity|].
  cbn [first_error plotted].
  destruct (row_error fh row); [discriminate|].
  intros H. now rewrite IH.
Qed.

Lemma opened_all fh rows :
  first_error fh rows = None -> opened fh rows = List.length rows.
Proof.
  intros H. unfold opened. rewrite H, (plotted_all _ _ H). lia.
Qed.

Lemma plot_rows_run_no_plots file fh out rev todo :
  forall df w,
    plot_rows file fh out true rev todo df w =
      (match first_error fh todo with
       | Some e => Raise e
       | None => Ok df
       end, w ++ repeat Subplots (opened fh todo)).
Proof.
  induction todo as [|row rest IH]; intros df w.
  - cbn. unfold ret. now rewrite app_nil_r.
  - cbn [plot_rows]. unfold bind. rewrite plot_row_run.
    unfold opened. cbn [first_error plotted].
    destruct (row_error fh row) as [e|]; [reflexivity|].
    rewrite IH, <- app_assoc. reflexivity.
Qed.


Lemma plot_rows_run_none file fh rev todo df w :
  plot_rows file fh None false rev todo df w =
    match todo with
    | [] => (Ok df, w)
    | row :: _ =>
        (Raise (match row_error fh row with Some e => e | None => TypeError end),
         w ++ [Subplots])
    end.
Proof.
  destruct todo as [|row rest]; [reflexivity|].
  cbn [plot_rows]. unfold bind. rewrite plot_row_run.
  destruct (row_error fh row); reflexivity.
Qed.

Lemma plot_rows_run_error file fh out np rev row rest df w e :
  row_error fh row = Some e ->
  plot_rows file fh out np rev (row :: rest) df w = (Raise e, w ++ [Subplots]).
Proof.
  intros H. cbn [plot_rows]. unfold bind. now rewrite plot_row_run, H.
Qed.


Lemma search_events_ok L file omni out np rev w fh dE Eic wr :
  read_dmsp_file L file = Ok fh ->
  estimate_log_Eic_smooth_derivative L fh = Ok (dE, Eic) ->
  walk_and_integrate L fh omni dE Eic (INTERVAL_LENGTH L) rev = Ok wr ->
  search_events L file omni out np rev w =
    bind (plot_rows file fh out np rev (walk_matches wr)
            (Pd.from_records (walk_matches wr)))
         (fun df => ret (Some df)) w.
Proof.
  intros Hread Hest Hwalk. unfold search_events.
  rewrite Hread. cbv iota. rewrite Hest, bind_lift_ok. cbv beta iota.
  rewrite Hwalk, bind_lift_ok. reflexivity.
Qed.


(* ================================================================== *)
(** * The driver: what is written, and when *)

(** C2: when the run gets to its output, what [main] prints and what it
    writes to the CSV file is one table, whose rows are the concatenation
    of the per-file results ordered by [start_time]: a permutation of the
    concatenated rows that is sorted by start time. *)
Theorem main_writes_sorted_concat L case_file no_plot w omniweb_fh df_matches :
  read_omniweb_files L (OMNIWEB_FILES case_file) = Ok omniweb_fh ->
  results_of (map (per_file L case_file no_plot omniweb_fh)
                (DMSP_FILES case_file)) = Ok df_matches ->
  Pd.somes df_matches <> [] ->
  exists log df,
    main L case_file no_plot w = (Ok tt, w ++ log ++ report case_file df) /\
    csv_written (snd (main L case_file no_plot w))
      = csv_written w ++ [(EVENT_OUTPUT case_file, df)] /\
    Permutation (Pd.rows df) (flat_map Pd.rows (Pd.somes df_matches)) /\
    StronglySorted le_start (Pd.rows df).
Proof.
  intros Homni Hfiles Hsome.
  destruct (concat_some _ Hsome) as (df0 & Hcat).
  assert (Hout : main_outcome L case_file no_plot = Ok (Pd.sort_values df0)).
  { unfold main_outcome. now rewrite Homni, Hfiles, Hcat. }
  destruct (main_spec L case_file no_plot w) as (log & _ & Hmain).
  rewrite Hout in Hmain.
  exists log, (Pd.sort_values df0). repeat split.
  - exact Hmain.
  - rewrite main_csv, Hout. reflexivity.
  - rewrite sort_values_perm.
    apply concat_ok in Hcat as [_ ->]. reflexivity.
  - apply sort_values_sorted.
Qed.

Lemma main_writes_sorted_concat_witness :
  exists df_matches log df,
    main Example.lib (Example.case_of ["day1.cdf"; "corrupt.cdf"]%string) true []
      = (Ok tt, [] ++ log
                ++ report (Example.case_of ["day1.cdf"; "corrupt.cdf"]%string) df) /\
    csv_written
      (snd (main Example.lib
              (Example.case_of ["day1.cdf"; "corrupt.cdf"]%string) true []))
      = csv_written [] ++ [("events.csv"%string, df)] /\
    Permutation (Pd.rows df) (flat_map Pd.rows (Pd.somes df_matches)) /\
    StronglySorted le_start (Pd.rows df).
Proof.
  eexists.
  eapply (main_writes_sorted_concat Example.lib
            (Example.case_of ["day1.cdf"; "corrupt.cdf"]%string) true []
            Example.omni).
  - reflexivity.
  - vm_compute. reflexivity.
  - vm_compute. discriminate.
Defined.

(** C8: when [read_dmsp_file] raises [pycdf.CDFError], [search_events]
    returns None, not an empty table, so None is what the loop appends for
    that file; when this happens for every file of a run, [pd.concat]
    raises (ValueError) and the run ends without writing the CSV. *)
Theorem all_files_unreadable_no_csv L case_file no_plot w omniweb_fh :
  read_omniweb_files L (OMNIWEB_FILES case_file) = Ok omniweb_fh ->
  (forall f, In f (DMSP_FILES case_file) -> read_dmsp_file L f = Raise CDFError) ->
  (forall f out np rev w0, In f (DMSP_FILES case_file) ->
     search_events L f omniweb_fh out np rev w0 = (Ok None, w0)) /\
  results_of (map (per_file L case_file no_plot omniweb_fh) (DMSP_FILES case_file))
    = Ok (map (fun _ => None) (DMSP_FILES case_file)) /\
  Pd.concat (map (fun _ => None) (DMSP_FILES case_file)) = Raise ValueError /\
  fst (main L case_file no_plot w) = Raise ValueError /\
  csv_written (snd (main L case_file no_plot w)) = csv_written w.
Proof.
  intros Homni Hall.
  assert (Hres : results_of (map (per_file L case_file no_plot omniweb_fh)
                               (DMSP_FILES case_file))
                 = Ok (map (fun _ => None) (DMSP_FILES case_file))).
  { induction (DMSP_FILES case_file) as [|f rest IH]; [reflexivity|].
    simpl. unfold per_file at 1, value.
    rewrite search_events_cdf_error by (apply Hall; now left). simpl.
    rewrite IH; [reflexivity|]. intros g Hg. apply Hall. now right. }
  assert (Hcat : Pd.concat (map (fun _ : string => @None Pd.DataFrame)
                              (DMSP_FILES case_file)) = Raise ValueError).
  { apply concat_raise. clear.
    induction (DMSP_FILES case_file) as [|f rest IH]; simpl; auto. }
  assert (Hout : main_outcome L case_file no_plot = Raise ValueError).
  { unfold main_outcome. now rewrite Homni, Hres, Hcat. }
  repeat split.
  - intros f out np rev w0 Hf. apply search_events_cdf_error. now apply Hall.
  - exact Hres.
  - exact Hcat.
  - now rewrite main_value, Hout.
  - now rewrite main_csv, Hout, app_nil_r.
Qed.

Lemma all_files_unreadable_no_csv_witness :
  (forall f out np rev w0,
     In f (DMSP_FILES (Example.case_of ["corrupt.cdf"; "corrupt.cdf"]%string)) ->
     search_events Example.lib f Example.omni out np rev w0 = (Ok None, w0)) /\
  results_of (map (per_file Example.lib
                     (Example.case_of ["corrupt.cdf"; "corrupt.cdf"]%string)
                     false Example.omni)
                (DMSP_FILES (Example.case_of ["corrupt.cdf"; "corrupt.cdf"]%string)))
    = Ok (map (fun _ => None)
            (DMSP_FILES (Example.case_of ["corrupt.cdf"; "corrupt.cdf"]%string))) /\
  Pd.concat (map (fun _ => None)
               (DMSP_FILES (Example.case_of ["corrupt.cdf"; "corrupt.cdf"]%string)))
    = Raise ValueError /\
  fst (main Example.lib (Example.case_of ["corrupt.cdf"; "corrupt.cdf"]%string)
         false []) = Raise ValueError /\
  csv_written
    (snd (main Example.lib (Example.case_of ["corrupt.cdf"; "corrupt.cdf"]%string)
            false [])) = csv_written [].
Proof.
  apply (all_files_unreadable_no_csv Example.lib
           (Example.case_of ["corrupt.cdf"; "corrupt.cdf"]%string) false []
           Example.omni).
  - reflexivity.
  - simpl. intros f [<-|[<-|[]]]; reflexivity.
Defined.

(** C3, as the code has it: when [read_dmsp_file] raises
    [pycdf.CDFError], [search_events] returns None for that file, with no
    event record and no effect, and the file loop goes on with the files
    that follow. *)
Theorem cdf_error_skips_file L dmsp_file :
  read_dmsp_file L dmsp_file = Raise CDFError ->
  (forall omni out np rev w,
     search_events L dmsp_file omni out np rev w = (Ok None, w)) /\
  (forall case_file np omni k n rest w,
     file_loop L case_file np omni k n (dmsp_file :: rest) w =
       let '(r, w') := file_loop L case_file np omni (k + 1) n rest
                         (w ++ [Processing k n dmsp_file]) in
       (match r with
        | Ok df_matches => Ok (None :: df_matches)
        | Raise e => Raise e
        end, w')).
Proof.
  intros Hread. split.
  - intros. now apply search_events_cdf_error.
  - intros. simpl. unfold bind at 1, emit at 1. unfold bind at 1.
    rewrite search_events_cdf_error by assumption.
    unfold bind.
    destruct (file_loop L case_file np omni (k + 1) n rest _) as [[ds|e] w'];
      reflexivity.
Qed.

Lemma cdf_error_skips_file_witness :
  (forall omni out np rev w,
     search_events Example.lib "corrupt.cdf" omni out np rev w = (Ok None, w)) /\
  (forall case_file np omni k n rest w,
     file_loop Example.lib case_file np omni k n ("corrupt.cdf"%string :: rest) w =
       let '(r, w') := file_loop Example.lib case_file np omni (k + 1) n rest
                         (w ++ [Processing k n "corrupt.cdf"]) in
       (match r with
        | Ok df_matches => Ok (None :: df_matches)
        | Raise e => Raise e
        end, w')).
Proof.
  apply (cdf_error_skips_file Example.lib "corrupt.cdf"). reflexivity.
Defined.

(** C3 does not hold for every exception: [read_dmsp_file] raising
    anything but [pycdf.CDFError] is not handled; [search_events] raises,
    and [main] ends at that file without processing the next one. *)
Lemma unreadable_file_other_error_ends_run :
  read_dmsp_file Example.lib "nokeys.cdf" = Raise OtherError /\
  search_events Example.lib "nokeys.cdf" Example.omni (Some "plots"%string)
    true false [] = (Raise OtherError, []) /\
  main Example.lib (Example.case_of ["nokeys.cdf"; "day1.cdf"]%string) true []
    = (Raise OtherError, [Processing 1 2 "nokeys.cdf"]).
Proof. repeat split; vm_compute; reflexivity. Qed.




(** C9: in a table returned by [search_events] the match columns are
    those of [walk_and_integrate], unchanged, and the 'file' column is
    there only when plotting is enabled and the file has at least one
    match (it then holds the file name in every row); with
    [no_plots = True], or with no match, the table has no 'file' column. *)
Theorem file_column_only_when_plotted L dmsp_file omniweb_fh outfolder
    no_plots reverse_effect w df w' :
  search_events L dmsp_file omniweb_fh outfolder no_plots reverse_effect w
    = (Ok (Some df), w') ->
  exists dmsp_fh dEicdt_smooth Eic wr,
    read_dmsp_file L dmsp_file = Ok dmsp_fh /\
    estimate_log_Eic_smooth_derivative L dmsp_fh = Ok (dEicdt_smooth, Eic) /\
    walk_and_integrate L dmsp_fh omniweb_fh dEicdt_smooth Eic
      (INTERVAL_LENGTH L) reverse_effect = Ok wr /\
    map Pd.rec (Pd.rows df) = walk_matches wr /\
    (no_plots = true -> df = Pd.from_records (walk_matches wr)) /\
    (walk_matches wr = [] -> df = Pd.from_records (walk_matches wr)) /\
    (no_plots = true -> Pd.file_column df = false) /\
    (Pd.rows df = [] -> Pd.file_column df = false) /\
    (Pd.file_column df = true ->
       no_plots = false /\ Pd.rows df <> [] /\
       Forall (fun r => Pd.file r = Some dmsp_file) (Pd.rows df)).
Proof.
  intros H. apply search_events_some in H
    as (fh & dE & Eic & wr & Hread & Hest & Hwalk & ->).
  exists fh, dE, Eic, wr. repeat split; auto.
  - now rewrite after_plots_rec, from_records_rec.
  - now intros ->.
  - intros ->. unfold after_plots. now destruct no_plots.
  - now intros ->.
  - unfold after_plots. destruct no_plots; [reflexivity|].
    destruct (walk_matches wr); [reflexivity|discriminate].
  - unfold after_plots in H. destruct no_plots; [discriminate|reflexivity].
  - unfold after_plots in *. destruct no_plots; [discriminate|].
    destruct (walk_matches wr); discriminate.
  - unfold after_plots in *. destruct no_plots; [discriminate|].
    destruct (walk_matches wr); [discriminate|].
    simpl. constructor; [reflexivity|].
    apply Forall_map. apply Forall_map. now apply Forall_forall.
Qed.

Lemma file_column_only_when_plotted_witness :
  exists df w',
    search_events Example.lib "day1.cdf" Example.omni (Some "plots"%string)
      false false [] = (Ok (Some df), w') /\
    exists dmsp_fh dEicdt_smooth Eic wr,
      read_dmsp_file Example.lib "day1.cdf" = Ok dmsp_fh /\
      estimate_log_Eic_smooth_derivative Example.lib dmsp_fh
        = Ok (dEicdt_smooth, Eic) /\
      walk_and_integrate Example.lib dmsp_fh Example.omni dEicdt_smooth Eic
        (INTERVAL_LENGTH Example.lib) false = Ok wr /\
      map Pd.rec (Pd.rows df) = walk_matches wr /\
      (false = true -> df = Pd.from_records (walk_matches wr)) /\
      (walk_matches wr = [] -> df = Pd.from_records (walk_matches wr)) /\
      (false = true -> Pd.file_column df = false) /\
      (Pd.rows df = [] -> Pd.file_column df = false) /\
      (Pd.file_column df = true ->
         false = false /\ Pd.rows df <> [] /\
         Forall (fun r => Pd.file r = Some "day1.cdf"%string) (Pd.rows df)).
Proof.
  eexists. eexists. split.
  - vm_compute. reflexivity.
  - eapply (file_column_only_when_plotted Example.lib "day1.cdf" Example.omni
              (Some "plots"%string) false false []).
    vm_compute. reflexivity.
Defined.

(** C10: for a match row ([start_time <= end_time]) whose two times lie
    strictly inside the range of the file's timestamps, both
    [searchsorted] indices are below the length of the series, and the
    widened and clamped window satisfies [0 <= i <= j <= size - 1]: the
    accesses [mlat[i]] and [mlat[j]] succeed and the slices [[i:j]] take
    [j - i] elements of the per-timestep arrays. *)
Theorem plot_window_in_bounds (dmsp_fh : Dmsp) (row_match : MatchRecord) :
  Np.size (mlat dmsp_fh) = Np.size (dmsp_t dmsp_fh) ->
  dmsp_t dmsp_fh <> [] ->
  hd 0 (dmsp_t dmsp_fh) < start_time row_match ->
  end_time row_match < last (dmsp_t dmsp_fh) 0 ->
  start_time row_match <= end_time row_match ->
  Np.searchsorted (dmsp_t dmsp_fh) (start_time row_match)
    < Np.size (dmsp_t dmsp_fh) /\
  Np.searchsorted (dmsp_t dmsp_fh) (end_time row_match)
    < Np.size (dmsp_t dmsp_fh) /\
  let '(i, j) := plot_window (dmsp_t dmsp_fh) row_match in
  0 <= i /\ i <= j /\ j <= Np.size (dmsp_t dmsp_fh) - 1 /\
  (exists a b, Np.getitem (mlat dmsp_fh) i = Ok a /\
               Np.getitem (mlat dmsp_fh) j = Ok b) /\
  Np.size (Np.slice (dmsp_t dmsp_fh) i j) = j - i /\
  Np.size (Np.slice (mlat dmsp_fh) i j) = j - i.
Proof.
  intros Hsize Hne Hlo Hhi Hle.
  set (t := dmsp_t dmsp_fh) in *.
  assert (Hi : Np.searchsorted t (start_time row_match) < Np.size t)
    by (apply searchsorted_below_last; [assumption | lia]).
  assert (Hj : Np.searchsorted t (end_time row_match) < Np.size t)
    by (apply searchsorted_below_last; [assumption | lia]).
  split; [exact Hi|]. split; [exact Hj|].
  unfold plot_window.
  pose proof (searchsorted_range t (start_time row_match)) as Ri.
  pose proof (searchsorted_mono t _ _ Hle) as Hij.
  set (i0 := Np.searchsorted t (start_time row_match)) in *.
  set (j0 := Np.searchsorted t (end_time row_match)) in *.
  assert (Hd : 0 <= Z.quot (j0 - i0) 2) by (apply Z.quot_pos; lia).
  set (d := Z.quot (j0 - i0) 2) in *.
  assert (Hi' : 0 <= Z.max (i0 - d) 0 <= i0) by lia.
  assert (Hj' : j0 <= Z.min (j0 + d) (Np.size t - 1) <= Np.size t - 1) by lia.
  set (i := Z.max (i0 - d) 0) in *.
  set (j := Z.min (j0 + d) (Np.size t - 1)) in *.
  split; [lia|]. split; [lia|]. split; [lia|]. split.
  - destruct (getitem_ok (mlat dmsp_fh) i) as (a & Ha); [lia|].
    destruct (getitem_ok (mlat dmsp_fh) j) as (b & Hb); [lia|].
    now exists a, b.
  - split; apply slice_length; lia.
Qed.

Lemma plot_window_in_bounds_witness :
  Np.searchsorted (dmsp_t Example.day1) 60 < Np.size (dmsp_t Example.day1) /\
  Np.searchsorted (dmsp_t Example.day1) 180 < Np.size (dmsp_t Example.day1) /\
  let '(i, j) := plot_window (dmsp_t Example.day1)
                   (mkMatch 60 180 0%Qc 0%Qc 0%Qc) in
  0 <= i /\ i <= j /\ j <= Np.size (dmsp_t Example.day1) - 1 /\
  (exists a b, Np.getitem (mlat Example.day1) i = Ok a /\
               Np.getitem (mlat Example.day1) j = Ok b) /\
  Np.size (Np.slice (dmsp_t Example.day1) i j) = j - i /\
  Np.size (Np.slice (mlat Example.day1) i j) = j - i.
Proof.
  apply (plot_window_in_bounds Example.day1 (mkMatch 60 180 0%Qc 0%Qc 0%Qc));
    simpl; try lia; try reflexivity; discriminate.
Defined.

(* ================================================================== *)
(** * The event walker: intervals are disjoint and ordered *)

Section Walker.

Variable T : Core.Tuning.
Variable pol : Core.Polarity.
Variable ts : list Z.
Variable interval_length : Z.

Lemma ordered_weaken cs : forall lo lo', lo <= lo' -> ordered lo' cs -> ordered lo cs.
Proof.
  destruct cs as [|c rest]; simpl; [trivial|].
  intros lo lo' Hlo (H1 & H2 & H3). repeat split; [lia | assumption ..].
Qed.

Lemma close_ordered c :
  forall rest,
    Core.start_index c <= Core.end_index c ->
    ordered (Core.end_index c + 1) rest ->
    ordered (Core.start_index c) (Core.close T pol ts c ++ rest).
Proof.
  intros rest Hle Hrest. unfold Core.close, Core.accepted.
  destruct (Z.ltb_spec (Core.start_index c) (Core.end_index c)) as [Hlt|Hge];
    simpl.
  - destruct (Core.accept_rule T pol _ _); simpl.
    + repeat split; [lia | assumption ..].
    + eapply ordered_weaken; [|exact Hrest]. lia.
  - eapply ordered_weaken; [|exact Hrest]. lia.
Qed.

Lemma close_bound c hi :
  Core.end_index c < hi ->
  Forall (fun c' => Core.end_index c' < hi) (Core.close T pol ts c).
Proof.
  intros H. unfold Core.close. destruct (Core.accepted T pol ts c);
    repeat constructor. exact H.
Qed.

(** The invariant of the single pass. *)
Lemma walk_ordered samples :
  forall k prev st,
    0 <= k -> state_ok k st ->
    ordered (state_lo k st)
      (Core.walk T pol ts interval_length k prev samples st) /\
    Forall (fun c => Core.end_index c < k + Np.size samples)
      (Core.walk T pol ts interval_length k prev samples st).
Proof.
  induction samples as [|[t x] rest IH]; intros k prev st Hk Hst.
  - destruct st as [|c]; simpl.
    + split; constructor.
    + destruct Hst as (H0 & H1 & H2). split.
      * rewrite <- (app_nil_r (Core.close T pol ts c)).
        apply close_ordered; [exact H1 | exact I].
      * apply close_bound. change (Np.size (@nil (Z * Qc))) with 0. lia.
  - rewrite size_cons. cbn [Core.walk].
    destruct st as [|c]; cbn [Core.step state_lo].
    + destruct (Core.entry_rule T pol x); cbn [app].
      * destruct (IH (k + 1) t
                    (Core.ACCUMULATING
                       (Core.mkInterval k k
                          (x * Core.of_Z (t - prev))%Qc)))
          as [Ho Hb]; [lia | cbn [state_ok Core.start_index Core.end_index]; lia |].
        split; [exact Ho|].
        eapply Forall_impl; [|exact Hb]. cbv beta; intros; lia.
      * destruct (IH (k + 1) t Core.IDLE) as [Ho Hb]; [lia | exact I |].
        split.
        -- eapply ordered_weaken; [|exact Ho]. cbn [state_lo]. lia.
        -- eapply Forall_impl; [|exact Hb]. cbv beta; intros; lia.
    + destruct Hst as (H0 & H1 & H2).
      destruct (_ || _).
      * destruct (IH (k + 1) t Core.IDLE) as [Ho Hb]; [lia | exact I |].
        split.
        -- apply (close_ordered
                    (Core.mkInterval (Core.start_index c) k
                       (Core.running_integral c
                        + x * Core.of_Z (t - prev))%Qc)).
           ++ cbn [Core.start_index Core.end_index]. lia.
           ++ exact Ho.
        -- apply Forall_app. split.
           ++ apply close_bound. cbn [Core.end_index].
              pose proof (size_nonneg rest). lia.
           ++ eapply Forall_impl; [|exact Hb]. cbv beta; intros; lia.
      * cbn [app].
        destruct (IH (k + 1) t
                    (Core.ACCUMULATING
                       (Core.mkInterval (Core.start_index c) k
                          (Core.running_integral c
                           + x * Core.of_Z (t - prev))%Qc)))
          as [Ho Hb]; [lia | cbn [state_ok Core.start_index Core.end_index]; lia |].
        split; [exact Ho|].
        eapply Forall_impl; [|exact Hb]. cbv beta; intros; lia.
Qed.

Lemma size_combine {A B} (l : list A) (l' : list B) :
  Np.size (combine l l') <= Np.size l.
Proof. unfold Np.size. rewrite length_combine. lia. Qed.

Lemma event_walker_ordered integrand :
  ordered 0 (Core.event_walker T pol ts interval_length integrand) /\
  Forall (fun c => Core.end_index c < Np.size ts)
    (Core.event_walker T pol ts interval_length integrand).
Proof.
  unfold Core.event_walker.
  destruct (walk_ordered (combine ts integrand) 0 (hd 0 ts) Core.IDLE)
    as [Ho Hb]; [lia | exact I |].
  split; [exact Ho|].
  eapply Forall_impl; [|exact Hb]. cbv beta.
  pose proof (size_combine ts integrand). intros; lia.
Qed.

End Walker.

(* ================================================================== *)
(** * From index intervals to match records *)

Lemma sorted_nth (ts : list Z) :
  StronglySorted Z.lt ts ->
  forall i j, (i < j < List.length ts)%nat -> nth i ts 0 < nth j ts 0.
Proof.
  induction 1 as [|t ts Hs IH Ht]; intros i j Hij; simpl in Hij; [lia|].
  destruct j as [|j]; [lia|]. destruct i as [|i]; simpl.
  - rewrite Forall_forall in Ht. apply Ht. apply nth_In. lia.
  - apply IH. lia.
Qed.

Lemma time_at_lt (ts : list Z) i j :
  StronglySorted Z.lt ts -> 0 <= i < j -> j < Np.size ts ->
  Core.time_at ts i < Core.time_at ts j.
Proof.
  intros Hs Hij Hj. unfold Core.time_at. apply sorted_nth; [assumption|].
  unfold Np.size in Hj. lia.
Qed.

Lemma ordered_all cs :
  forall lo, ordered lo cs ->
    Forall (fun c => lo <= Core.start_index c < Core.end_index c) cs.
Proof.
  induction cs as [|c rest IH]; intros lo H; [constructor|].
  destruct H as (H1 & H2 & H3). constructor; [lia|].
  eapply Forall_impl; [|apply (IH _ H3)]. simpl. intros; lia.
Qed.

Lemma summarize_ok omni ts c r :
  Core.summarize omni ts c = Ok r -> summarizes ts c r.
Proof.
  unfold Core.summarize.
  destruct (Core.mean_over omni _ _) as [[[bx by_] bz]|e]; [|discriminate].
  intros H. injection H as <-. split; reflexivity.
Qed.

Lemma summarize_all_ok omni ts cs :
  forall rs, Core.summarize_all omni ts cs = Ok rs ->
             Forall2 (summarizes ts) cs rs.
Proof.
  induction cs as [|c rest IH]; simpl; intros rs H.
  - injection H as <-. constructor.
  - destruct (Core.summarize omni ts c) as [r|e] eqn:E; [|discriminate].
    destruct (Core.summarize_all omni ts rest) as [rs'|e]; [|discriminate].
    injection H as <-. constructor; [now apply summarize_ok in E | now apply IH].
Qed.

Lemma records_after ts e lo cs rs :
  StronglySorted Z.lt ts -> 0 <= e < lo ->
  Forall2 (summarizes ts) cs rs ->
  Forall (fun c => Core.end_index c < Np.size ts) cs ->
  Forall (fun c => lo <= Core.start_index c < Core.end_index c) cs ->
  Forall (fun r => Core.time_at ts e < start_time r) rs.
Proof.
  intros Hs He H2. induction H2 as [|c r cs rs Hcr H2 IH]; intros Hb Ho.
  - constructor.
  - inversion Hb as [|? ? Hc Hb']; subst.
    inversion Ho as [|? ? Hoc Ho']; subst.
    constructor; [|now apply IH].
    destruct Hcr as [-> _]. apply time_at_lt; [assumption | lia | lia].
Qed.

Lemma records_ordered ts cs rs :
  StronglySorted Z.lt ts ->
  Forall2 (summarizes ts) cs rs ->
  forall lo, 0 <= lo ->
    Forall (fun c => Core.end_index c < Np.size ts) cs ->
    ordered lo cs ->
    Forall (fun r => start_time r < end_time r) rs /\
    StronglySorted ends_before rs.
Proof.
  intros Hs H2. induction H2 as [|c r cs rs Hcr H2 IH]; intros lo Hlo Hb Ho.
  - split; constructor.
  - inversion Hb as [|? ? Hc Hb']; subst.
    destruct Ho as (H1 & H3 & H4).
    destruct (IH (Core.end_index c + 1)) as [IHa IHb]; [lia | exact Hb' | exact H4 |].
    pose proof Hcr as [Hst Hen].
    split.
    + constructor; [|exact IHa]. rewrite Hst, Hen.
      apply time_at_lt; [assumption | lia | lia].
    + constructor; [exact IHb|].
      unfold ends_before. rewrite Hen.
      apply (records_after ts (Core.end_index c) (Core.end_index c + 1) cs rs);
        [assumption | lia | assumption | assumption |].
      now apply ordered_all.
Qed.

Lemma ends_before_starts rs :
  Forall (fun r => start_time r < end_time r) rs ->
  StronglySorted ends_before rs ->
  StronglySorted starts_before rs /\ StronglySorted disjoint rs.
Proof.
  intros Hlt Hs. induction Hs as [|r rs Hs IH Hr].
  - split; constructor.
  - inversion Hlt as [|? ? Hr0 Hlt']; subst.
    destruct (IH Hlt') as [IH1 IH2]. split.
    + constructor; [exact IH1|].
      eapply Forall_impl; [|exact Hr]. unfold ends_before, starts_before.
      intros; lia.
    + constructor; [exact IH2|].
      eapply Forall_impl; [|exact Hr]. unfold ends_before, disjoint, covers.
      intros b Hb tau. lia.
Qed.

Section Pipeline.

Variable T : Core.Tuning.
Variable omni_reader : list string -> result Omni.
Variable dmsp_reader : string -> result Dmsp.
Variable interval_length : Z.
Variable cutoff : Qc.

Let L := Core.lib T omni_reader dmsp_reader interval_length cutoff.

Lemma walk_and_integrate_ordered fh omni dE Eic len rev wr :
  StronglySorted Z.lt (dmsp_t fh) ->
  Core.walk_and_integrate T cutoff fh omni dE Eic len rev = Ok wr ->
  Forall (fun r => start_time r < end_time r) (walk_matches wr) /\
  StronglySorted ends_before (walk_matches wr).
Proof.
  intros Hs. unfold Core.walk_and_integrate.
  destruct (Core.build_integrand _ _ _ _ _ _ _) as [integrand|e];
    [|discriminate].
  destruct (Core.summarize_all _ _ _) as [rs|e] eqn:E; [|discriminate].
  intros H. injection H as <-. simpl.
  apply summarize_all_ok in E.
  destruct (event_walker_ordered T (Core.polarity_of rev) (dmsp_t fh) len
              integrand) as [Ho Hb].
  apply (records_ordered (dmsp_t fh) _ rs Hs E 0); [lia | exact Hb | exact Ho].
Qed.

Lemma pipeline_some file omni out np rev w df w' :
  search_events L file omni out np rev w = (Ok (Some df), w') ->
  exists fh wr,
    dmsp_reader file = Ok fh /\
    Core.walk_and_integrate T cutoff fh omni (fst (Core.estimate T fh))
      (snd (Core.estimate T fh)) interval_length rev = Ok wr /\
    map Pd.rec (Pd.rows df) = walk_matches wr.
Proof.
  intros H. apply search_events_some in H
    as (fh & dE & Eic & wr & Hread & Hest & Hwalk & ->).
  simpl in Hread, Hest, Hwalk. injection Hest as Hest.
  exists fh, wr. rewrite Hest. simpl. repeat split; auto.
  now rewrite after_plots_rec, from_records_rec.
Qed.

End Pipeline.

(** C1: for a file whose timestamps are strictly increasing, the match
    records of the table [search_events] returns are pairwise disjoint in
    time (no timestep lies in two of them) and ordered by start time:
    each record ends after it starts and before the next one starts. *)
Theorem search_events_matches_disjoint_ordered
    (T : Core.Tuning) (omni_reader : list string -> result Omni)
    (dmsp_reader : string -> result Dmsp) (interval_length : Z) (cutoff : Qc)
    dmsp_file dmsp_fh omniweb_fh outfolder no_plots reverse_effect w df w' :
  dmsp_reader dmsp_file = Ok dmsp_fh ->
  StronglySorted Z.lt (dmsp_t dmsp_fh) ->
  search_events (Core.lib T omni_reader dmsp_reader interval_length cutoff)
    dmsp_file omniweb_fh outfolder no_plots reverse_effect w
    = (Ok (Some df), w') ->
  Forall (fun r => start_time r < end_time r) (map Pd.rec (Pd.rows df)) /\
  StronglySorted ends_before (map Pd.rec (Pd.rows df)) /\
  StronglySorted starts_before (map Pd.rec (Pd.rows df)) /\
  StronglySorted disjoint (map Pd.rec (Pd.rows df)).
Proof.
  intros Hread Hs H.
  apply pipeline_some in H as (fh & wr & Hread' & Hwalk & ->).
  assert (fh = dmsp_fh) as -> by congruence.
  apply walk_and_integrate_ordered in Hwalk as [Hlt Hord]; [|exact Hs].
  destruct (ends_before_starts _ Hlt Hord) as [H1 H2].
  repeat split; assumption.
Qed.

Lemma search_events_matches_disjoint_ordered_witness :
  exists df w',
    search_events Example.lib "day1.cdf" Example.omni (Some "plots"%string)
      false false [] = (Ok (Some df), w') /\
    List.length (Pd.rows df) = 2%nat /\
    Forall (fun r => start_time r < end_time r) (map Pd.rec (Pd.rows df)) /\
    StronglySorted ends_before (map Pd.rec (Pd.rows df)) /\
    StronglySorted starts_before (map Pd.rec (Pd.rows df)) /\
    StronglySorted disjoint (map Pd.rec (Pd.rows df)).
Proof.
  eexists. eexists. split; [vm_compute; reflexivity|].
  split; [reflexivity|].
  eapply (search_events_matches_disjoint_ordered Example.tuning
            Example.omni_reader Example.dmsp_reader 120 (Example.q 100)
            "day1.cdf" Example.day1 Example.omni (Some "plots"%string)
            false false []).
  - reflexivity.
  - unfold Example.day1, Example.minutes. simpl.
    repeat (constructor; [|repeat (constructor; try lia)]). constructor.
  - vm_compute. reflexivity.
Defined.

(* ================================================================== *)
(** * Too few samples *)

Lemma combine_nil_r {A B} (l : list A) : combine l (@nil B) = [].
Proof. now destruct l. Qed.

Lemma build_integrand_nil T pol omni cutoff ts es :
  Core.build_integrand T pol omni cutoff ts [] es = Ok [].
Proof. now destruct ts. Qed.

(** C7: when the characteristic-energy series is shorter than the
    smoothing window, the derivative estimator returns an empty
    derivative series, and [search_events] returns, without raising and
    without any effect, a table with no event. *)
Theorem short_series_no_events
    (T : Core.Tuning) (omni_reader : list string -> result Omni)
    (dmsp_reader : string -> result Dmsp) (interval_length : Z) (cutoff : Qc)
    dmsp_file dmsp_fh omniweb_fh outfolder no_plots reverse_effect w :
  dmsp_reader dmsp_file = Ok dmsp_fh ->
  Np.size (char_energy dmsp_fh) < Core.smoothing_window T ->
  fst (Core.estimate T dmsp_fh) = [] /\
  search_events (Core.lib T omni_reader dmsp_reader interval_length cutoff)
    dmsp_file omniweb_fh outfolder no_plots reverse_effect w
    = (Ok (Some (Pd.from_records [])), w).
Proof.
  intros Hread Hshort.
  assert (He : Core.estimate T dmsp_fh
               = ([], Core.log_series T (char_energy dmsp_fh))).
  { unfold Core.estimate.
    destruct (Z.ltb_spec (Np.size (char_energy dmsp_fh))
                (Core.smoothing_window T)); [reflexivity | lia]. }
  split; [now rewrite He|].
  unfold search_events. simpl. rewrite Hread.
  unfold bind at 1, lift at 1. rewrite He.
  unfold bind at 1, lift at 1.
  unfold Core.walk_and_integrate. rewrite build_integrand_nil.
  unfold Core.event_walker. rewrite combine_nil_r. simpl.
  reflexivity.
Qed.

Lemma short_series_no_events_witness :
  fst (Core.estimate Example.tuning Example.short_day) = [] /\
  search_events Example.lib "short.cdf" Example.omni (Some "plots"%string)
    false false [] = (Ok (Some (Pd.from_records [])), []).
Proof.
  apply (short_series_no_events Example.tuning Example.omni_reader
           Example.dmsp_reader 120 (Example.q 100) "short.cdf"
           Example.short_day Example.omni (Some "plots"%string) false false []).
  - reflexivity.
  - vm_compute. reflexivity.
Defined.

(* ================================================================== *)
(** * Polarity symmetry *)














Section Mirror.

Variable T : Core.Tuning.








End Mirror.




(* ================================================================== *)
(** * The effects of one call of search_events *)

Lemma open_figures_app w1 w2 :
  open_figures (w1 ++ w2) = open_figures w1 + open_figures w2.
Proof.
  induction w1 as [|e w1 IH]; [reflexivity|].
  rewrite <- app_comm_cons. destruct e; cbn [open_figures]; lia.
Qed.

Lemma open_figures_repeat n : open_figures (repeat Subplots n) = Z.of_nat n.
Proof.
  induction n as [|n IH]; [reflexivity|].
  cbn [repeat open_figures]. lia.
Qed.

(** X1: with [no_plots = True] a call of [search_events] creates no
    directory, saves no figure and prints no 'Wrote plot' line; what it
    does is open figures: one [plt.subplots] per row the loop starts on
    and no [plt.close()], so that a call which returns a table has raised
    the number of open figures (the number pyplot warns about beyond 20)
    by the number of rows of that table. *)
Theorem search_events_no_plots_leaves_figures L dmsp_file omniweb_fh outfolder
    reverse_effect w :
  exists n,
    snd (search_events L dmsp_file omniweb_fh outfolder true reverse_effect w)
      = w ++ repeat Subplots n /\
    open_figures
      (snd (search_events L dmsp_file omniweb_fh outfolder true
              reverse_effect w))
      = open_figures w + Z.of_nat n /\
    forall df,
      fst (search_events L dmsp_file omniweb_fh outfolder true reverse_effect w)
        = Ok (Some df) ->
      n = List.length (Pd.rows df).
Proof.
  assert (Hnone : forall r : result (option Pd.DataFrame),
             (forall df, r <> Ok (Some df)) ->
             exists n, snd (r, w) = w ++ repeat Subplots n /\
                       open_figures (snd (r, w)) = open_figures w + Z.of_nat n /\
                       forall df, fst (r, w) = Ok (Some df) ->
                                  n = List.length (Pd.rows df)).
  { intros r Hr. exists 0%nat. cbn [snd fst repeat]. rewrite app_nil_r.
    repeat split; [lia|]. intros df H. now apply Hr in H. }
  unfold search_events.
  destruct (read_dmsp_file L dmsp_file) as [fh|e].
  2:{ destruct e; apply Hnone; intros df; discriminate. }
  destruct (estimate_log_Eic_smooth_derivative L fh) as [[dE Eic]|e];
    [rewrite bind_lift_ok
    | rewrite bind_lift_raise; apply Hnone; intros df; discriminate].
  destruct (walk_and_integrate L fh omniweb_fh dE Eic (INTERVAL_LENGTH L)
              reverse_effect) as [wr|e];
    [rewrite bind_lift_ok
    | rewrite bind_lift_raise; apply Hnone; intros df; discriminate].
  unfold bind. rewrite plot_rows_run_no_plots.
  exists (opened fh (walk_matches wr)).
  destruct (first_error fh (walk_matches wr)) as [e|] eqn:E;
    unfold ret; cbn [fst snd];
    (split; [reflexivity|]);
    (split; [now rewrite open_figures_app, open_figures_repeat|]).
  - intros df H. discriminate H.
  - intros df H. injection H as <-.
    rewrite (opened_all _ _ E). cbn. now rewrite length_map.
Qed.



(** X3: with the default arguments of [search_events] ([outfolder=None],
    [no_plots=False]) a file with at least one match cannot be plotted:
    the call opens the figure of the first row and raises there, TypeError
    from [outfolder + '/'] unless the row raises before (ValueError of
    [pcolor], IndexError of [mlat]), and saves nothing; a file without
    match returns its empty table and has no effect. *)
Theorem search_events_default_arguments L dmsp_file omniweb_fh reverse_effect w
    dmsp_fh dEicdt_smooth Eic wr :
  read_dmsp_file L dmsp_file = Ok dmsp_fh ->
  estimate_log_Eic_smooth_derivative L dmsp_fh = Ok (dEicdt_smooth, Eic) ->
  walk_and_integrate L dmsp_fh omniweb_fh dEicdt_smooth Eic
    (INTERVAL_LENGTH L) reverse_effect = Ok wr ->
  search_events L dmsp_file omniweb_fh None false reverse_effect w =
    match walk_matches wr with
    | [] => (Ok (Some (Pd.from_records [])), w)
    | row :: _ =>
        (Raise (match row_error dmsp_fh row with
                | Some e => e
                | None => TypeError
                end), w ++ [Subplots])
    end.
Proof.
  intros Hread Hest Hwalk.
  rewrite (search_events_ok _ _ _ _ _ _ _ _ _ _ _ Hread Hest Hwalk).
  unfold bind. rewrite plot_rows_run_none.
  destruct (walk_matches wr); reflexivity.
Qed.

Lemma search_events_default_arguments_witness :
  search_events (fixed_lib sample_rows) "day1.cdf" Example.omni None false
    false [] = (Raise TypeError, [Subplots]).
Proof.
  apply (search_events_default_arguments (fixed_lib sample_rows) "day1.cdf"
           Example.omni false [] Example.day1
           (map (fun _ => Some 0%Qc) Example.minutes)
           (map (fun e => Some e) (char_energy Example.day1))
           (mkWalk sample_rows (map (fun _ => 0%Qc) Example.minutes)));
    reflexivity.
Defined.

(* ================================================================== *)
(** * The plot window *)

Lemma searchsorted_all a v :
  Forall (fun x => x < v) a -> Np.searchsorted a v = Np.size a.
Proof.
  induction 1 as [|x a Hx _ IH]; [reflexivity|].
  cbn [Np.searchsorted]. rewrite size_cons, IH.
  destruct (Z.ltb_spec x v); lia.
Qed.

Lemma searchsorted_nth (t : list Z) :
  StronglySorted Z.lt t ->
  forall k, (k < List.length t)%nat ->
            Np.searchsorted t (nth k t 0) = Z.of_nat k.
Proof.
  induction 1 as [|x t Hs IH Hx]; intros k Hk; simpl in Hk; [lia|].
  destruct k as [|k]; cbn [nth Np.searchsorted].
  - rewrite Z.ltb_irrefl. reflexivity.
  - assert (Hlt : x < nth k t 0).
    { rewrite Forall_forall in Hx. apply Hx. apply nth_In. lia. }
    destruct (Z.ltb_spec x (nth k t 0)); [|lia].
    rewrite IH by lia. lia.
Qed.


Lemma pcolor_empty (x : list Z) : Np.size x = 0 -> pcolor x = Raise ValueError.
Proof. destruct x; [reflexivity | rewrite size_cons]. pose proof (size_nonneg x). lia. Qed.

Lemma slice_empty {A} (a : list A) i j :
  0 <= i -> 0 <= j <= i \/ Np.size a <= i -> Np.size (Np.slice a i j) = 0.
Proof.
  intros Hi H. unfold Np.slice, Np.bound.
  pose proof (size_nonneg a) as Hn.
  destruct (Z.ltb_spec i 0); [lia|].
  destruct (Z.ltb_spec j 0); unfold Np.size in *;
    rewrite length_firstn, length_skipn; lia.
Qed.


(** A row whose two times fall on the same index, or that starts at or
    after the last index, has an empty window. *)
Lemma row_error_empty fh row :
  start_time row <= end_time row ->
  Np.searchsorted (dmsp_t fh) (start_time row)
    = Np.searchsorted (dmsp_t fh) (end_time row) \/
  Np.size (dmsp_t fh) - 1 <= Np.searchsorted (dmsp_t fh) (start_time row) ->
  row_error fh row = Some ValueError.
Proof.
  intros Hle H. unfold row_error, plot_window.
  pose proof (searchsorted_range (dmsp_t fh) (start_time row)) as Ri.
  pose proof (searchsorted_range (dmsp_t fh) (end_time row)) as Rj.
  pose proof (searchsorted_mono (dmsp_t fh) _ _ Hle) as Hij.
  set (i0 := Np.searchsorted (dmsp_t fh) (start_time row)) in *.
  set (j0 := Np.searchsorted (dmsp_t fh) (end_time row)) in *.
  assert (Hq : Z.quot (j0 - i0) 2 = (j0 - i0) / 2)
    by (apply Z.quot_div_nonneg; lia).
  rewrite Hq.
  rewrite pcolor_empty; [reflexivity|].
  pose proof (Z.div_mod (j0 - i0) 2 ltac:(lia)) as Hdm.
  pose proof (Z.mod_pos_bound (j0 - i0) 2 ltac:(lia)) as Hm.
  apply slice_empty; [lia|].
  destruct (Z.eq_dec (Np.size (dmsp_t fh)) 0); [right; lia | left; lia].
Qed.

(** X4: for a row with [start_time <= end_time] the plot window is the
    index range of the row widened by half its width (rounded down) on
    each end, then clamped: it starts at or before the row's first index,
    reaches the row's last index whenever that index exists, is at most
    twice as wide as the row, and is exactly the widened range when no
    clamp applies. *)
Theorem plot_window_widens (t : list Z) (row : MatchRecord) :
  start_time row <= end_time row ->
  let i0 := Np.searchsorted t (start_time row) in
  let j0 := Np.searchsorted t (end_time row) in
  let d := Z.quot (j0 - i0) 2 in
  let '(i, j) := plot_window t row in
  0 <= d /\ i <= i0 /\
  (j0 <= Np.size t - 1 -> j0 <= j) /\
  j - i <= 2 * (j0 - i0) /\
  (d <= i0 -> j0 + d <= Np.size t - 1 ->
   i = i0 - d /\ j = j0 + d /\ 2 * (j0 - i0) - 1 <= j - i).
Proof.
  intros Hle. unfold plot_window.
  pose proof (searchsorted_range t (start_time row)) as Ri.
  pose proof (searchsorted_range t (end_time row)) as Rj.
  pose proof (searchsorted_mono t _ _ Hle) as Hij.
  set (i0 := Np.searchsorted t (start_time row)) in *.
  set (j0 := Np.searchsorted t (end_time row)) in *.
  cbv zeta.
  assert (Hq : Z.quot (j0 - i0) 2 = (j0 - i0) / 2)
    by (apply Z.quot_div_nonneg; lia).
  rewrite Hq.
  pose proof (Z.div_mod (j0 - i0) 2 ltac:(lia)) as Hdm.
  pose proof (Z.mod_pos_bound (j0 - i0) 2 ltac:(lia)) as Hm.
  repeat split; try lia.
Qed.

Lemma plot_window_widens_witness :
  let i0 := Np.searchsorted Example.minutes 60 in
  let j0 := Np.searchsorted Example.minutes 300 in
  let d := Z.quot (j0 - i0) 2 in
  let '(i, j) := plot_window Example.minutes (mkMatch 60 300 0%Qc 0%Qc 0%Qc) in
  0 <= d /\ i <= i0 /\
  (j0 <= Np.size Example.minutes - 1 -> j0 <= j) /\
  j - i <= 2 * (j0 - i0) /\
  (d <= i0 -> j0 + d <= Np.size Example.minutes - 1 ->
   i = i0 - d /\ j = j0 + d /\ 2 * (j0 - i0) - 1 <= j - i).
Proof.
  apply (plot_window_widens Example.minutes (mkMatch 60 300 0%Qc 0%Qc 0%Qc)).
  simpl. lia.
Defined.

(** X5: on strictly increasing timestamps [searchsorted] gives back the
    index of a timestamp of the array, so for a row that starts at
    [t[s]] and ends at [t[e]] the plot window is
    [max (s - (e-s)/2) 0 .. min (e + (e-s)/2) (size-1)]. *)
Theorem plot_window_of_own_timestamps (t : list Z) (row : MatchRecord)
    (s e : nat) :
  StronglySorted Z.lt t ->
  (s <= e < List.length t)%nat ->
  start_time row = nth s t 0 ->
  end_time row = nth e t 0 ->
  Np.searchsorted t (start_time row) = Z.of_nat s /\
  Np.searchsorted t (end_time row) = Z.of_nat e /\
  plot_window t row =
    (Z.max (Z.of_nat s - Z.quot (Z.of_nat e - Z.of_nat s) 2) 0,
     Z.min (Z.of_nat e + Z.quot (Z.of_nat e - Z.of_nat s) 2) (Np.size t - 1)).
Proof.
  intros Hs Hse Hst Hen.
  assert (Hi : Np.searchsorted t (start_time row) = Z.of_nat s)
    by (rewrite Hst; apply searchsorted_nth; [assumption | lia]).
  assert (Hj : Np.searchsorted t (end_time row) = Z.of_nat e)
    by (rewrite Hen; apply searchsorted_nth; [assumption | lia]).
  repeat split; try assumption.
  unfold plot_window. now rewrite Hi, Hj.
Qed.

Lemma minutes_sorted : StronglySorted Z.lt Example.minutes.
Proof.
  unfold Example.minutes.
  repeat (constructor; [|repeat (constructor; try lia)]). constructor.
Qed.

Lemma plot_window_of_own_timestamps_witness :
  Np.searchsorted Example.minutes 60 = 1 /\
  Np.searchsorted Example.minutes 180 = 3 /\
  plot_window Example.minutes (mkMatch 60 180 0%Qc 0%Qc 0%Qc) =
    (Z.max (1 - Z.quot (3 - 1) 2) 0,
     Z.min (3 + Z.quot (3 - 1) 2) (Np.size Example.minutes - 1)).
Proof.
  apply (plot_window_of_own_timestamps Example.minutes
           (mkMatch 60 180 0%Qc 0%Qc 0%Qc) 1 3).
  - exact minutes_sorted.
  - simpl. lia.
  - reflexivity.
  - reflexivity.
Defined.



(** X7: a first match row with an empty plot window makes
    [search_events] raise ValueError in [pcolor], with plots or without
    and whatever the output folder: the figure of the row has been opened
    and stays open, nothing is saved.  The window is empty when the two
    times of the row fall on the same index of the timestamps (a row of
    no duration, or inside one sampling gap, or beyond the file) and when
    the row starts at or after the last timestamp. *)
Theorem search_events_empty_window L dmsp_file omniweb_fh outfolder no_plots
    reverse_effect w dmsp_fh dEicdt_smooth Eic wr row rest :
  read_dmsp_file L dmsp_file = Ok dmsp_fh ->
  estimate_log_Eic_smooth_derivative L dmsp_fh = Ok (dEicdt_smooth, Eic) ->
  walk_and_integrate L dmsp_fh omniweb_fh dEicdt_smooth Eic
    (INTERVAL_LENGTH L) reverse_effect = Ok wr ->
  walk_matches wr = row :: rest ->
  start_time row <= end_time row ->
  Np.searchsorted (dmsp_t dmsp_fh) (start_time row)
    = Np.searchsorted (dmsp_t dmsp_fh) (end_time row) \/
  Np.size (dmsp_t dmsp_fh) - 1
    <= Np.searchsorted (dmsp_t dmsp_fh) (start_time row) ->
  search_events L dmsp_file omniweb_fh outfolder no_plots reverse_effect w
    = (Raise ValueError, w ++ [Subplots]).
Proof.
  intros Hread Hest Hwalk Hrows Hle Hwin.
  rewrite (search_events_ok _ _ _ _ _ _ _ _ _ _ _ Hread Hest Hwalk).
  unfold bind. rewrite Hrows.
  now rewrite (plot_rows_run_error _ _ _ _ _ _ _ _ _ _
                 (row_error_empty dmsp_fh row Hle Hwin)).
Qed.

Lemma search_events_empty_window_witness :
  search_events (fixed_lib [mkMatch 420 900 0%Qc 0%Qc 0%Qc]) "day1.cdf"
    Example.omni (Some "plots"%string) false false []
  = (Raise ValueError, [] ++ [Subplots]).
Proof.
  apply (search_events_empty_window
           (fixed_lib [mkMatch 420 900 0%Qc 0%Qc 0%Qc]) "day1.cdf"
           Example.omni (Some "plots"%string) false false [] Example.day1
           (map (fun _ => Some 0%Qc) Example.minutes)
           (map (fun e => Some e) (char_energy Example.day1))
           (mkWalk [mkMatch 420 900 0%Qc 0%Qc 0%Qc]
                   (map (fun _ => 0%Qc) Example.minutes))
           (mkMatch 420 900 0%Qc 0%Qc 0%Qc) []);
    try reflexivity.
  - simpl. lia.
  - right. simpl. lia.
Defined.

(* ================================================================== *)
(** * The run of main: files named in the CSV, progress, confinement *)

Lemma results_of_Forall2 {A B} (g : A -> result B) (l : list A) :
  forall ds, results_of (map g l) = Ok ds ->
             Forall2 (fun x d => g x = Ok d) l ds.
Proof.
  induction l as [|x l IH]; simpl; intros ds H.
  - injection H as <-. constructor.
  - destruct (g x) as [d|e] eqn:E; [|discriminate].
    destruct (results_of (map g l)) as [ds'|e]; [|discriminate].
    injection H as <-. constructor; [exact E | now apply IH].
Qed.

Lemma per_file_some L case_file np omni f df :
  per_file L case_file np omni f = Ok (Some df) ->
  exists rows, df = after_plots f np rows (Pd.from_records rows).
Proof.
  unfold per_file, value.
  destruct (search_events L f omni (Some (PLOT_OUTPUT case_file)) np
              (REVERSE_EFFECT case_file) []) as [r w'] eqn:E.
  simpl. intros ->.
  apply search_events_some in E as (fh & dE & Eic & wr & _ & _ & _ & ->).
  now exists (walk_matches wr).
Qed.

Lemma after_plots_files (f : string) (np : bool) (rows : list MatchRecord) :
  Forall (fun r => Pd.file r = if np then None else Some f)
    (Pd.rows (after_plots f np rows (Pd.from_records rows))) /\
  (Pd.file_column (after_plots f np rows (Pd.from_records rows)) = true <->
   np = false /\ Pd.rows (after_plots f np rows (Pd.from_records rows)) <> []).
Proof.
  unfold after_plots. destruct np.
  - split.
    + simpl. apply Forall_map. now apply Forall_forall.
    + simpl. split; [discriminate | intros [H _]; discriminate].
  - destruct rows as [|r rows].
    + split; [constructor|]. simpl. split; [discriminate | intros [_ H]; congruence].
    + split.
      * simpl. constructor; [reflexivity|].
        apply Forall_map. apply Forall_map. now apply Forall_forall.
      * simpl. split; [intros _; split; [reflexivity | discriminate] | reflexivity].
Qed.

Lemma somes_Forall2 {A B} (P : A -> option B -> Prop) (Q : B -> Prop) l ds :
  Forall2 (fun x d => P x d) l ds ->
  (forall x d, In x l -> P x (Some d) -> Q d) ->
  Forall Q (Pd.somes ds).
Proof.
  intros H HQ. induction H as [|x d l ds Hxd H IH]; [constructor|].
  unfold Pd.somes in *. simpl. apply Forall_app. split.
  - destruct d as [d|]; constructor; [|constructor].
    apply (HQ x); [now left | exact Hxd].
  - apply IH. intros y d' Hy. apply HQ. now right.
Qed.

Lemma concat_column objs df :
  Pd.concat objs = Ok df ->
  Pd.file_column df = existsb Pd.file_column (Pd.somes objs).
Proof.
  unfold Pd.concat. destruct (Pd.somes objs); [discriminate|].
  intros H. now injection H as <-.
Qed.

Lemma existsb_file_column dfs np :
  Forall (fun d => Pd.file_column d = true <-> np = false /\ Pd.rows d <> [])
    dfs ->
  (existsb Pd.file_column dfs = true <->
   np = false /\ flat_map Pd.rows dfs <> []).
Proof.
  induction 1 as [|d dfs Hd _ IH]; simpl.
  - split; [discriminate | intros [_ H]; congruence].
  - rewrite orb_true_iff, Hd, IH. split.
    + intros [[Hn Hr]|[Hn Hr]]; (split; [exact Hn|]).
      * destruct (Pd.rows d); [congruence | discriminate].
      * intros Happ. apply app_eq_nil in Happ as [_ Happ]. congruence.
    + intros [Hn Hr]. destruct (Pd.rows d) eqn:E.
      * right. split; [exact Hn | exact Hr].
      * left. split; [exact Hn | discriminate].
Qed.

(** X8: in the CSV of a completed run the 'file' column tells whether
    plots were made: with [--no-plot] the table has no 'file' column and
    no row names a file; with plotting every row names a DMSP file of the
    case file, and the column is there exactly when the table has a row. *)
Theorem csv_rows_name_their_file L case_file no_plot w :
  fst (main L case_file no_plot w) = Ok tt ->
  exists df,
    csv_written (snd (main L case_file no_plot w))
      = csv_written w ++ [(EVENT_OUTPUT case_file, df)] /\
    (no_plot = true ->
       Pd.file_column df = false /\
       Forall (fun r => Pd.file r = None) (Pd.rows df)) /\
    (no_plot = false ->
       Forall (fun r => exists f, In f (DMSP_FILES case_file) /\
                                  Pd.file r = Some f) (Pd.rows df)) /\
    (Pd.file_column df = true <-> no_plot = false /\ Pd.rows df <> []).
Proof.
  rewrite main_value, main_csv. unfold main_outcome.
  destruct (read_omniweb_files L (OMNIWEB_FILES case_file)) as [omni|e];
    [|discriminate].
  destruct (results_of _) as [dfs|e] eqn:Hres; [|discriminate].
  destruct (Pd.concat dfs) as [df0|e] eqn:Hcat; [|discriminate].
  intros _. exists (Pd.sort_values df0). split; [reflexivity|].
  apply results_of_Forall2 in Hres.
  assert (Hfiles : Forall
            (fun d => Forall (fun r => exists f, In f (DMSP_FILES case_file) /\
                        Pd.file r = if no_plot then None else Some f)
                        (Pd.rows d) /\
                      (Pd.file_column d = true <->
                       no_plot = false /\ Pd.rows d <> []))
            (Pd.somes dfs)).
  { eapply somes_Forall2; [exact Hres|]. cbv beta.
    intros f d Hin Hd. apply per_file_some in Hd as (rows & ->).
    destruct (after_plots_files f no_plot rows) as [H1 H2].
    split; [|exact H2].
    eapply Forall_impl; [|exact H1]. cbv beta. intros r Hr. now exists f. }
  assert (Hrows : Forall (fun r => exists f, In f (DMSP_FILES case_file) /\
                            Pd.file r = if no_plot then None else Some f)
                    (Pd.rows (Pd.sort_values df0))).
  { eapply Permutation_Forall; [symmetry; apply sort_values_perm|].
    destruct (concat_ok _ _ Hcat) as [_ ->].
    apply Forall_flat_map.
    eapply Forall_impl; [|exact Hfiles]. cbv beta. now intros d [H _]. }
  assert (Hcol : Pd.file_column (Pd.sort_values df0) = true <->
                 no_plot = false /\ Pd.rows (Pd.sort_values df0) <> []).
  { assert (Hne : Pd.rows (Pd.sort_values df0) <> [] <-> Pd.rows df0 <> []).
    { pose proof (sort_values_perm df0) as Hp. split; intros H E; apply H.
      - rewrite E in Hp. symmetry in Hp. now apply Permutation_nil in Hp.
      - rewrite E in Hp. now apply Permutation_nil in Hp. }
    rewrite Hne. cbn [Pd.sort_values Pd.file_column].
    rewrite (concat_column _ _ Hcat).
    apply concat_ok in Hcat as [_ ->].
    apply existsb_file_column.
    eapply Forall_impl; [|exact Hfiles]. cbv beta. now intros d [_ H]. }
  split; [|split; [|exact Hcol]].
  - intros ->. split.
    + destruct (Pd.file_column (Pd.sort_values df0)); [|reflexivity].
      destruct (proj1 Hcol eq_refl) as [E _]. discriminate E.
    + eapply Forall_impl; [|exact Hrows]. cbv beta.
      now intros r (f & _ & Hr).
  - intros ->. exact Hrows.
Qed.

Lemma csv_rows_name_their_file_witness :
  exists df,
    csv_written
      (snd (main Example.lib
              (Example.case_of ["day1.cdf"; "corrupt.cdf"]%string) false []))
      = csv_written []
        ++ [(EVENT_OUTPUT (Example.case_of ["day1.cdf"; "corrupt.cdf"]%string),
             df)] /\
    (false = true ->
       Pd.file_column df = false /\
       Forall (fun r => Pd.file r = None) (Pd.rows df)) /\
    (false = false ->
       Forall (fun r => exists f,
                 In f (DMSP_FILES
                         (Example.case_of ["day1.cdf"; "corrupt.cdf"]%string)) /\
                 Pd.file r = Some f) (Pd.rows df)) /\
    (Pd.file_column df = true <-> false = false /\ Pd.rows df <> []).
Proof.
  apply (csv_rows_name_their_file Example.lib
           (Example.case_of ["day1.cdf"; "corrupt.cdf"]%string) false []).
  vm_compute. reflexivity.
Defined.

Lemma progress_app w1 w2 : progress (w1 ++ w2) = progress w1 ++ progress w2.
Proof. unfold progress. apply flat_map_app. Qed.

Lemma progress_plot_effects log : Forall plot_effect log -> progress log = [].
Proof.
  induction 1 as [|e log He _ IH]; [reflexivity|].
  simpl. rewrite IH. destruct e; simpl in *; try reflexivity; contradiction.
Qed.

Lemma file_loop_progress L case_file np omni n files :
  forall k w,
    progress (snd (file_loop L case_file np omni k n files w)) =
      progress w ++
      numbered k n
        (firstn (started (map (per_file L case_file np omni) files)) files).
Proof.
  induction files as [|f rest IH]; intros k w.
  - simpl. now rewrite app_nil_r.
  - destruct (logs_run _ _ (search_events_logs L f omni
                (Some (PLOT_OUTPUT case_file)) np (REVERSE_EFFECT case_file)))
      as (log1 & Hlog1 & H1).
    cbn [file_loop map started]. unfold bind at 1, emit at 1.
    unfold bind at 1. rewrite H1. fold (per_file L case_file np omni f).
    destruct (per_file L case_file np omni f) as [d|e].
    + unfold bind.
      specialize (IH (k + 1) ((w ++ [Processing k n f]) ++ log1)).
      destruct (file_loop L case_file np omni (k + 1) n rest
                  ((w ++ [Processing k n f]) ++ log1)) as [[ds|e] w2];
        unfold ret; cbn [snd firstn numbered] in *; rewrite IH;
        rewrite !progress_app, (progress_plot_effects _ Hlog1), app_nil_r,
          <- app_assoc; reflexivity.
    + cbn [snd firstn numbered].
      now rewrite !progress_app, (progress_plot_effects _ Hlog1), app_nil_r.
Qed.

(** X9: [main] announces the files in the order of the case file, numbered
    from 1 out of their total number, up to and including the first file
    that ends with an exception; when the field record cannot be read, no
    file is announced. *)
Theorem main_progress L case_file no_plot w :
  progress (snd (main L case_file no_plot w)) =
    progress w ++
    match read_omniweb_files L (OMNIWEB_FILES case_file) with
    | Raise _ => []
    | Ok omniweb_fh =>
        numbered 1 (Np.size (DMSP_FILES case_file))
          (firstn (started (map (per_file L case_file no_plot omniweb_fh)
                              (DMSP_FILES case_file)))
                  (DMSP_FILES case_file))
    end.
Proof.
  unfold main.
  destruct (read_omniweb_files L (OMNIWEB_FILES case_file)) as [omni|e].
  2:{ rewrite bind_lift_raise. simpl. now rewrite app_nil_r. }
  rewrite bind_lift_ok.
  pose proof (file_loop_progress L case_file no_plot omni
                (Np.size (DMSP_FILES case_file)) (DMSP_FILES case_file) 1 w)
    as H.
  unfold bind at 1.
  destruct (file_loop L case_file no_plot omni 1 _ _ w) as [[dfs|e] w1];
    cbn [snd] in H; [|exact H].
  destruct (Pd.concat dfs) as [df0|e];
    [rewrite bind_lift_ok | rewrite bind_lift_raise; exact H].
  unfold bind, emit. cbn [snd].
  rewrite !progress_app, H. simpl. now rewrite !app_nil_r.
Qed.

Lemma main_progress_witness :
  progress
    (snd (main Example.lib
            (Example.case_of ["day1.cdf"; "late.cdf"; "short.cdf"]%string)
            true []))
  = [(1, 3, "day1.cdf"%string); (2, 3, "late.cdf"%string)].
Proof.
  rewrite (main_progress Example.lib
             (Example.case_of ["day1.cdf"; "late.cdf"; "short.cdf"]%string)
             true []).
  vm_compute. reflexivity.
Defined.

Lemma plot_row_confined file fh out np rev row df :
  logs (plots_of file out np) (plot_row file fh out np rev row df).
Proof.
  unfold plot_row. destruct (plot_window _ _) as [i j].
  apply logs_bind; [apply logs_emit; exact I | intros _].
  apply logs_bind; [apply logs_lift | intros _].
  apply logs_bind; [apply logs_lift | intros a].
  apply logs_bind; [apply logs_lift | intros b].
  destruct np; [apply logs_ret|].
  destruct out as [folder|]; [|apply logs_raise].
  apply logs_bind; [apply logs_emit; simpl; auto | intros _].
  apply logs_bind; [apply logs_emit; simpl; auto | intros _].
  apply logs_bind; [apply logs_emit; exact I | intros _].
  apply logs_bind; [apply logs_emit; simpl; auto | intros _].
  apply logs_ret.
Qed.

Lemma plot_rows_confined file fh out np rev todo :
  forall df, logs (plots_of file out np) (plot_rows file fh out np rev todo df).
Proof.
  induction todo as [|row rest IH]; intros df; simpl.
  - apply logs_ret.
  - apply logs_bind; [apply plot_row_confined | intros df'; apply IH].
Qed.

Lemma search_events_confined L file omni out np rev :
  logs (plots_of file out np) (search_events L file omni out np rev).
Proof.
  unfold search_events.
  destruct (read_dmsp_file L file) as [fh|[]];
    try apply logs_ret; try apply logs_raise.
  apply logs_bind; [apply logs_lift | intros [dE Eic]].
  apply logs_bind; [apply logs_lift | intros wr].
  apply logs_bind; [apply plot_rows_confined | intros df; apply logs_ret].
Qed.

Lemma plots_of_confined case_file np f e :
  In f (DMSP_FILES case_file) ->
  plots_of f (Some (PLOT_OUTPUT case_file)) np e ->
  confined case_file np e.
Proof.
  intros Hin. destruct e; simpl; try contradiction; try (intros _; exact I).
  - intros [Hn Hp]. split; [exact Hn | congruence].
  - intros (Hn & Hp & Hf). repeat split; [exact Hn | congruence | now rewrite Hf].
  - intros (Hn & Hp & Hf). repeat split; [exact Hn | congruence | now rewrite Hf].
Qed.

Lemma file_loop_confined L case_file np omni files :
  incl files (DMSP_FILES case_file) ->
  forall k,
    logs (confined case_file np)
      (file_loop L case_file np omni k (Np.size (DMSP_FILES case_file)) files).
Proof.
  induction files as [|f rest IH]; intros Hincl k; simpl.
  - apply logs_ret.
  - assert (Hf : In f (DMSP_FILES case_file)) by (apply Hincl; now left).
    apply logs_bind; [apply logs_emit; simpl; auto | intros _].
    apply logs_bind.
    + eapply logs_weaken; [|apply search_events_confined].
      intros e. now apply plots_of_confined.
    + intros d. apply logs_bind; [|intros ds; apply logs_ret].
      apply IH. intros x Hx. apply Hincl. now right.
Qed.

(** X10: what a run of [main] writes is confined to the case file: every
    effect in the trace after the run that was not there before is one the
    case file allows.  A directory is created and a figure saved only
    without [--no-plot], only in PLOT_OUTPUT and only for a file of
    DMSP_FILES; a CSV is written only to EVENT_OUTPUT. *)
Theorem main_confined L case_file no_plot w :
  forall e,
    In e (snd (main L case_file no_plot w)) ->
    In e w \/ confined case_file no_plot e.
Proof.
  assert (H : logs (confined case_file no_plot) (main L case_file no_plot)).
  { unfold main.
    apply logs_bind; [apply logs_lift | intros omni].
    apply logs_bind;
      [apply file_loop_confined; apply incl_refl | intros dfs].
    apply logs_bind; [apply logs_lift | intros df0].
    apply logs_bind; [apply logs_emit; exact I | intros _].
    apply logs_bind; [apply logs_emit; exact I | intros _].
    apply logs_bind; [apply logs_emit; exact I | intros _].
    apply logs_emit. reflexivity. }
  destruct H as (r & log & Hlog & Hrun).
  intros e. rewrite Hrun. cbn [snd]. rewrite in_app_iff.
  intros [Hin|Hin]; [now left | right].
  rewrite Forall_forall in Hlog. now apply Hlog.
Qed.

Lemma main_confined_witness :
  In (Processing 1 2 "day1.cdf")
     (snd (main Example.lib
             (Example.case_of ["day1.cdf"; "corrupt.cdf"]%string) false [])) /\
  (In (Processing 1 2 "day1.cdf") [] \/
   confined (Example.case_of ["day1.cdf"; "corrupt.cdf"]%string) false
     (Processing 1 2 "day1.cdf")).
Proof.
  assert (H : In (Processing 1 2 "day1.cdf")
                (snd (main Example.lib
                        (Example.case_of ["day1.cdf"; "corrupt.cdf"]%string)
                        false []))).
  { vm_compute. left. reflexivity. }
  split; [exact H|].
  exact (main_confined Example.lib
           (Example.case_of ["day1.cdf"; "corrupt.cdf"]%string) false []
           (Processing 1 2 "day1.cdf") H).
Defined.
